(** * The catalog table: column selection, row projection and table assembly

    A shallow embedding of [CatalogTable.tsx]: the default column selection
    ([defaultColumnsFunc]), the row projection ([toEntityRow]), the display-name
    comparator ([refCompare]), the default row actions, and the two components
    [CatalogTable] and [LegacyCatalogTable].

    The array behind [entityListContext.entities] is a shared JavaScript
    object: the component reads it, and [Array.prototype.sort] writes it.  The
    embedding therefore threads the contents of that one array through every
    function that touches it (a small state monad, [M]). *)

From Stdlib Require Import ZArith Lia Ascii DecimalString.
From stdpp Require Import base option strings list gmap sorting.

Open Scope string_scope.
Open Scope Z_scope.
Open Scope list_scope.

(** ** Catalog entities *)

(** A compound reference (kind, namespace, name), as returned by
    [getEntityRelations]. *)
Record CompoundEntityRef := {
  ref_kind : string;
  ref_namespace : string;
  ref_name : string;
}.

(** One relation of an entity: its type and its target reference. *)
Record EntityRelation := {
  relation_type : string;
  relation_target : CompoundEntityRef;
}.

(** [entity.metadata]: [namespace], [title] and [annotations] are optional
    fields of the TypeScript type, hence the options. *)
Record EntityMeta := {
  meta_name : string;
  meta_namespace : option string;
  meta_title : option string;
  meta_annotations : option (gmap string string);
}.

Record Entity := {
  kind : string;
  metadata : EntityMeta;
  relations : option (list EntityRelation);
}.

(** ** JavaScript values and operators used by the component *)

(** Truthiness of a value of type [string | undefined]: [undefined] and the
    empty string are falsy. *)
Definition truthy (v : option string) : bool :=
  match v with
  | Some s => negb (String.eqb s "")
  | None => false
  end.

(** [v || d] for [v : string | undefined] and a string [d]. *)
Definition or_else (v : option string) (d : string) : string :=
  match v with
  | Some s => if String.eqb s "" then d else s
  | None => d
  end.

(** [v ?? d]: only [undefined] (and [null]) select [d]. *)
Definition nullish_else (v : option string) (d : string) : string :=
  match v with
  | Some s => s
  | None => d
  end.

(** Truthiness of an optional boolean property ([enablePagination]). *)
Definition flag_set (v : option bool) : bool :=
  match v with
  | Some b => b
  | None => false
  end.

(** [Array.prototype.join] on an array of strings. *)
Definition join (sep : string) (l : list string) : string := String.concat sep l.

(** The decimal rendering of an array length in a template literal. *)
Definition decimal (n : nat) : string := NilEmpty.string_of_uint (Nat.to_uint n).

(** An [Error] object and [Error.prototype.toString]. *)
Record JsError := {
  error_name : string;
  error_message : string;
}.

Definition toString (e : JsError) : string :=
  if String.eqb (error_name e) "" then error_message e
  else if String.eqb (error_message e) "" then error_name e
  else error_name e +:+ ": " +:+ error_message e.

(** Values stored in the table widget's options object. *)
Inductive JsValue :=
| VUndefined
| VBool (b : bool)
| VNum (z : Z)
| VStr (s : string)
| VNumList (l : list Z).

(** [{ ...base, ...options }]: every own property of [options] overrides the
    property of the same name; spreading [undefined] adds nothing. *)
Definition spread (base : gmap string JsValue) (options : option (gmap string JsValue))
  : gmap string JsValue :=
  default ∅ options ∪ base.

(** ** Imports *)

(** Modelled from the spec: the annotation keys and relation types that the
    catalog model exports ([ANNOTATION_VIEW_URL], [ANNOTATION_EDIT_URL],
    [RELATION_OWNED_BY], [RELATION_PART_OF]); the spec calls them the view-URL
    and edit-URL annotations and the "owned by" and "part of" relations. *)
Definition ANNOTATION_VIEW_URL : string := "backstage.io/view-url".
Definition ANNOTATION_EDIT_URL : string := "backstage.io/edit-url".
Definition RELATION_OWNED_BY : string := "ownedBy".
Definition RELATION_PART_OF : string := "partOf".

(** The functions the component imports from other packages.  The component
    only calls them; each is a pure function of its arguments.
    [humanizeEntityRef] accepts an entity or a compound reference, and an
    optional default kind; [getEntityRelations] takes an optional kind filter;
    [localeCompare] returns a negative, zero or positive number. *)
Class Imports := {
  humanizeEntityRef : Entity + CompoundEntityRef → option string → string;
  stringifyEntityRef : Entity → string;
  getEntityRelations : Entity → string → option string → list CompoundEntityRef;
  localeCompare : string → string → Z;
  capitalize : string → string;
  pluralize : string → string;
}.

(** ** Filters and the entity-list context *)

(** A filter object; the component reads only its [value]. *)
Record EntityFilter := { value : string }.

Record Filters := {
  filters_kind : option EntityFilter;
  filters_type : option EntityFilter;
  filters_user : option EntityFilter;
}.

(** [filters.kind?.value] and its siblings. *)
Definition value_of (f : option EntityFilter) : option string := value <$> f.

(** What [useEntityList()] returns, apart from the [entities] array, whose
    contents live in the store below. *)
Record EntityListContext := {
  loading : bool;
  error : option JsError;
  filters : Filters;
}.

(** ** The shared entity array *)

(** The contents of the array object [entityListContext.entities]. *)
Definition Store : Type := list Entity.

(** A computation that may read and write that array. *)
Definition M (A : Type) : Type := Store → A * Store.

Definition ret {A} (a : A) : M A := λ s, (a, s).
Definition bind {A B} (m : M A) (k : A → M B) : M B :=
  λ s, let '(a, s') := m s in k a s'.

Notation "x <- m ;; k" := (bind m (λ x, k))
  (at level 100, m at next level, right associativity, only parsing).

(** [entities.every(p)], [entities.map(f)] and [entities.length] read the
    array; [map] builds a new one. *)
Definition Array_every (p : Entity → bool) : M bool := λ s, (forallb p s, s).
Definition Array_map {B} (f : Entity → B) : M (list B) := λ s, (f <$> s, s).
Definition Array_length : M nat := λ s, (length s, s).

(** [entities.sort(compareFn)] sorts the array in place and returns it.  The
    language fixes the result for a consistent comparator (a stable sort in
    comparator order) and leaves the algorithm open; it is modelled by a merge
    sort on the relation [compareFn a b <= 0].  Elements that compare equal may
    come out of the merge sort in another order than out of a stable sort; no
    property below depends on the order of such elements. *)
Definition not_after (compareFn : Entity → Entity → Z) : relation Entity :=
  λ a b, compareFn a b ≤ 0.

#[global] Instance not_after_dec compareFn : RelDecision (not_after compareFn).
Proof. intros a b. unfold not_after. apply _. Defined.

Definition Array_sort (compareFn : Entity → Entity → Z) : M (list Entity) :=
  λ s, let sorted := merge_sort (not_after compareFn) s in (sorted, sorted).

(** ** Columns *)

(** A column descriptor is the result of one call of a column factory
    ([columnFactories] of the columns module); it is identified by the factory
    and the options passed to it. *)
Inductive TableColumn :=
| createTitleColumn (hidden : bool)
| createNameColumn (defaultKind : option string)
| createSystemColumn
| createOwnerColumn
| createSpecTypeColumn (hidden : bool)
| createSpecLifecycleColumn
| createSpecTargetsColumn
| createNamespaceColumn
| createMetadataDescriptionColumn
| createTagsColumn.

(** The inner function of [defaultColumnsFunc]; it closes over [filters],
    [showTypeColumn] and the [entities] array. *)
Definition createEntitySpecificColumns (filters : Filters) (showTypeColumn : bool)
  : M (list TableColumn) :=
  let baseColumns := [
    createSystemColumn;
    createOwnerColumn;
    createSpecTypeColumn (negb showTypeColumn);
    createSpecLifecycleColumn
  ] in
  let kind_is (k : string) := bool_decide (value_of (filters_kind filters) = Some k) in
  if kind_is "user" then ret []
  else if kind_is "domain" || kind_is "system" then ret [createOwnerColumn]
  else if kind_is "group" || kind_is "template" then
    ret [createSpecTypeColumn (negb showTypeColumn)]
  else if kind_is "location" then
    ret [createSpecTypeColumn (negb showTypeColumn); createSpecTargetsColumn]
  else
    allDefault <- Array_every
      (λ entity, bool_decide (meta_namespace (metadata entity) = Some "default")) ;;
    ret (if (allDefault : bool) then baseColumns
         else baseColumns ++ [createNamespaceColumn]).

Definition defaultColumnsFunc (ctx : EntityListContext) : M (list TableColumn) :=
  let showTypeColumn := bool_decide (filters_type (filters ctx) = None) in
  specific <- createEntitySpecificColumns (filters ctx) showTypeColumn ;;
  ret ([createTitleColumn true;
        createNameColumn (value_of (filters_kind (filters ctx)))]
       ++ specific
       ++ [createMetadataDescriptionColumn; createTagsColumn]).

(** ** Rows *)

(** The [resolved] part of a table row. *)
Record ResolvedRow := {
  resolved_name : string;
  entityRef : string;
  ownedByRelationsTitle : string;
  ownedByRelations : list CompoundEntityRef;
  partOfSystemRelationTitle : string;
  partOfSystemRelations : list CompoundEntityRef;
}.

Record CatalogTableRow := {
  row_entity : Entity;
  resolved : ResolvedRow;
}.

(** ** Row actions *)

(** What a click handler does to the world outside the component. *)
Inductive Effect :=
| WindowOpen (url target : string)
| ToggleStarredEntity (entity : Entity).

Inductive Glyph := OpenInNew | Edit | YellowStar | StarBorder.

(** The object a row action returns for a row.  [icon] is the visually hidden
    title and the glyph shown; [disabled] is absent from the favorite action;
    [onClick] is the sequence of effects of one click. *)
Record Action := {
  cellStyle : option (list (string * string));
  icon : string * Glyph;
  tooltip : string;
  disabled : option bool;
  onClick : list Effect;
}.

(** ** Rendered output *)

Definition ReactNode : Type := string.

Record CodeSnippet := {
  language : string;
  text : string;
}.

(** The props handed to the generic table widget by [LegacyCatalogTable]. *)
Record TableProps := {
  table_isLoading : bool;
  table_columns : list TableColumn;
  table_options : gmap string JsValue;
  table_title : string;
  table_data : list CatalogTableRow;
  table_actions : option (list (CatalogTableRow → Action));
  table_subtitle : option string;
  table_emptyContent : option ReactNode;
}.

(** The element [CatalogTable] returns: the warning panel with its code
    snippet, the paginated table with the two props it is given, or the generic
    table built by [LegacyCatalogTable]. *)
Inductive Rendered :=
| WarningPanel (severity title : string) (child : CodeSnippet)
| PaginatedCatalogTable (columns : list TableColumn) (data : list CatalogTableRow)
| Table (props : TableProps).

(** ** Props *)

(** [columns] is an array of columns or a function of the entity-list context
    (which may use the entity array). *)
Inductive ColumnsProp :=
| ColumnsArray (cols : list TableColumn)
| ColumnsFunc (f : EntityListContext → M (list TableColumn)).

Record CatalogTableProps := {
  props_columns : option ColumnsProp;
  props_actions : option (list (CatalogTableRow → Action));
  props_tableOptions : option (gmap string JsValue);
  props_emptyContent : option ReactNode;
  props_subtitle : option string;
  props_enablePagination : option bool;
}.

(** The props of [LegacyCatalogTable]; its [entities] prop is the shared
    array itself. *)
Record LegacyCatalogTableProps := {
  legacy_actions : option (list (CatalogTableRow → Action));
  legacy_columns : list TableColumn;
  legacy_emptyContent : option ReactNode;
  legacy_loading : bool;
  legacy_options : option (gmap string JsValue);
  legacy_subtitle : option string;
  legacy_title : string;
}.

(** ** The component *)

Section Component.
Context `{Imports}.

Definition toRef (entity : Entity) : string :=
  or_else (meta_title (metadata entity))
          (humanizeEntityRef (inl entity) (Some "Component")).

Definition refCompare (a b : Entity) : Z :=
  localeCompare (toRef a) (toRef b).

Definition toEntityRow (entity : Entity) : CatalogTableRow :=
  let partOfSystemRelations :=
    getEntityRelations entity RELATION_PART_OF (Some "system") in
  let ownedByRelations := getEntityRelations entity RELATION_OWNED_BY None in
  {| row_entity := entity;
     resolved := {|
       resolved_name := humanizeEntityRef (inl entity) (Some "Component");
       entityRef := stringifyEntityRef entity;
       ownedByRelationsTitle :=
         join ", " ((λ r, humanizeEntityRef (inr r) (Some "group"))
                      <$> ownedByRelations);
       ownedByRelations := ownedByRelations;
       partOfSystemRelationTitle :=
         join ", " ((λ r, humanizeEntityRef (inr r) (Some "system"))
                      <$> partOfSystemRelations);
       partOfSystemRelations := partOfSystemRelations;
     |} |}.

(** [entity.metadata.annotations?.[key]] *)
Definition annotation (entity : Entity) (key : string) : option string :=
  meta_annotations (metadata entity) ≫= (.!! key).

(** The handler shared by the View and Edit actions. *)
Definition open_in_new (url : option string) : list Effect :=
  match url with
  | Some u => if truthy url then [WindowOpen u "_blank"] else []
  | None => []
  end.

Definition viewAction (row : CatalogTableRow) : Action :=
  let url := annotation (row_entity row) ANNOTATION_VIEW_URL in
  let title := "View" in
  {| cellStyle := None;
     icon := (title, OpenInNew);
     tooltip := title;
     disabled := Some (negb (truthy url));
     onClick := open_in_new url |}.

Definition editAction (row : CatalogTableRow) : Action :=
  let url := annotation (row_entity row) ANNOTATION_EDIT_URL in
  let title := "Edit" in
  {| cellStyle := None;
     icon := (title, Edit);
     tooltip := title;
     disabled := Some (negb (truthy url));
     onClick := open_in_new url |}.

Definition starAction (isStarredEntity : Entity → bool) (row : CatalogTableRow)
  : Action :=
  let isStarred := isStarredEntity (row_entity row) in
  let title :=
    if isStarred then "Remove from favorites" else "Add to favorites" in
  {| cellStyle := Some [("paddingLeft", "1em")];
     icon := (title, if isStarred then YellowStar else StarBorder);
     tooltip := title;
     disabled := None;
     onClick := [ToggleStarredEntity (row_entity row)] |}.

Definition defaultActions (isStarredEntity : Entity → bool)
  : list (CatalogTableRow → Action) :=
  [viewAction; editAction; starAction isStarredEntity].

Definition LegacyCatalogTable (props : LegacyCatalogTableProps) : M Rendered :=
  _ <- Array_sort refCompare ;;
  rows <- Array_map toEntityRow ;;
  let showPagination := bool_decide (20 < length rows)%nat in
  ret (Table {|
    table_isLoading := legacy_loading props;
    table_columns := legacy_columns props;
    table_options :=
      spread (<["paging" := VBool showPagination]>
             (<["pageSize" := VNum 20]>
             (<["actionsColumnIndex" := VNum (-1)]>
             (<["loadingType" := VStr "linear"]>
             (<["showEmptyDataSourceMessage" := VBool (negb (legacy_loading props))]>
             (<["padding" := VStr "dense"]>
             (<["pageSizeOptions" := VNumList [20; 50; 100]]> ∅)))))))
             (legacy_options props);
    table_title := legacy_title props;
    table_data := rows;
    table_actions := legacy_actions props;
    table_subtitle := legacy_subtitle props;
    table_emptyContent := legacy_emptyContent props;
  |}).

(** [titleDisplay] of [CatalogTable]. *)
Definition titleDisplay (filters : Filters) : string :=
  let currentKind := or_else (value_of (filters_kind filters)) "" in
  let currentType := or_else (value_of (filters_type filters)) "" in
  let titlePreamble :=
    capitalize (nullish_else (value_of (filters_user filters)) "all") in
  join " " (List.filter (λ s, truthy (Some s))
                        [titlePreamble; currentType; pluralize currentKind]).

(** The memoised column computation of [CatalogTable], run as on a first
    render. *)
Definition tableColumns (props : CatalogTableProps)
    (entityListContext : EntityListContext) : M (list TableColumn) :=
  let columns := default (ColumnsFunc defaultColumnsFunc) (props_columns props) in
  match columns with
  | ColumnsFunc f => f entityListContext
  | ColumnsArray cols => ret cols
  end.

(** One render of [CatalogTable].  [isStarredEntity] is what
    [useStarredEntities()] returns, [entityListContext] what [useEntityList()]
    returns. *)
Definition CatalogTable (props : CatalogTableProps)
    (isStarredEntity : Entity → bool) (entityListContext : EntityListContext)
  : M Rendered :=
  tableColumns <- tableColumns props entityListContext ;;
  match error entityListContext with
  | Some err =>
      ret (WarningPanel "error" "Could not fetch catalog entities."
             {| language := "text"; text := toString err |})
  | None =>
      if flag_set (props_enablePagination props) then
        data <- Array_map toEntityRow ;;
        ret (PaginatedCatalogTable tableColumns data)
      else
        n <- Array_length ;;
        LegacyCatalogTable {|
          legacy_columns := tableColumns;
          legacy_emptyContent := props_emptyContent props;
          legacy_loading := loading entityListContext;
          legacy_title :=
            titleDisplay (filters entityListContext)
              +:+ " (" +:+ decimal n +:+ ")";
          legacy_actions :=
            Some (default (defaultActions isStarredEntity) (props_actions props));
          legacy_subtitle := props_subtitle props;
          legacy_options := props_tableOptions props;
        |}
  end.

End Component.

(** ** The claims' vocabulary *)

(** Which of the three elements a render produced. *)
Inductive Outcome := ErrorPanel | PaginatedTable | LegacyTable.

Definition outcome (r : Rendered) : Outcome :=
  match r with
  | WarningPanel _ _ _ => ErrorPanel
  | PaginatedCatalogTable _ _ => PaginatedTable
  | Table _ => LegacyTable
  end.

(** The row actions a rendered element carries, if it carries any. *)
Definition rendered_actions (r : Rendered) : option (list (CatalogTableRow → Action)) :=
  match r with
  | Table props => table_actions props
  | _ => None
  end.

(** The rows a rendered element displays. *)
Definition rendered_rows (r : Rendered) : list CatalogTableRow :=
  match r with
  | WarningPanel _ _ _ => []
  | PaginatedCatalogTable _ data => data
  | Table props => table_data props
  end.

(** The columns a rendered element is given. *)
Definition rendered_columns (r : Rendered) : list TableColumn :=
  match r with
  | WarningPanel _ _ _ => []
  | PaginatedCatalogTable columns _ => columns
  | Table props => table_columns props
  end.

(** The six kind-filter values with a column list of their own. *)
Definition special_kinds : list string :=
  ["user"; "domain"; "system"; "group"; "template"; "location"].

Section Vocabulary.
Context `{Imports}.

(** The display name as the specification words it: the title if the entity
    has one, otherwise the humanized reference with default kind
    [Component]. *)
Definition spec_display_name (entity : Entity) : string :=
  match meta_title (metadata entity) with
  | Some t => t
  | None => humanizeEntityRef (inl entity) (Some "Component")
  end.

(** The display name with an empty title counted as no title. *)
Definition display_name (entity : Entity) : string :=
  match meta_title (metadata entity) with
  | Some t => if decide (t = "") then humanizeEntityRef (inl entity) (Some "Component")
              else t
  | None => humanizeEntityRef (inl entity) (Some "Component")
  end.

(** Rows in ascending order of a display name under [localeCompare]. *)
Definition rows_ascending (name : Entity → string) : relation CatalogTableRow :=
  λ r1 r2, localeCompare (name (row_entity r1)) (name (row_entity r2)) ≤ 0.

(** The title as the specification words it: the capitalized user filter (or
    [all]), the type filter, the pluralized kind filter and the count in
    parentheses, empty segments dropped, one space between segments. *)
Definition spec_title (filters : Filters) (count : nat) : string :=
  let user_segment :=
    capitalize (match filters_user filters with
                | Some f => value f
                | None => "all"
                end) in
  let type_segment :=
    match filters_type filters with Some f => value f | None => "" end in
  let kind_segment :=
    match filters_kind filters with Some f => pluralize (value f) | None => "" end in
  join " " (List.filter (λ s, negb (String.eqb s ""))
              [user_segment; type_segment; kind_segment;
               "(" +:+ decimal count +:+ ")"]).

(** What the specification asks of the View and Edit actions: disabled
    exactly when [absent] holds of the annotation, opening the URL in a new
    browsing context otherwise. *)
Definition url_action_spec (absent : option string → Prop)
    (key title : string) (action : CatalogTableRow → Action) : Prop :=
  ∀ row : CatalogTableRow,
    let url := annotation (row_entity row) key in
    tooltip (action row) = title
    ∧ (disabled (action row) = Some true ↔ absent url)
    ∧ (absent url → onClick (action row) = [])
    ∧ (∀ u, url = Some u → ¬ absent url →
         disabled (action row) = Some false
         ∧ onClick (action row) = [WindowOpen u "_blank"]).

(** The three filter segments of the title, as the specification words them. *)
Definition spec_filter_segments (filters : Filters) : list string :=
  [capitalize (match filters_user filters with
               | Some f => value f
               | None => "all"
               end);
   match filters_type filters with Some f => value f | None => "" end;
   match filters_kind filters with Some f => pluralize (value f) | None => "" end].

End Vocabulary.

(** ** An instance of the imports on ASCII text

    Used to run the component on examples: references are rendered as
    [kind:namespace/name], strings are compared by code point, and the plural
    is the regular one. *)
Module Reference.

Definition lower (c : ascii) : ascii :=
  let n := N_of_ascii c in
  if ((65 <=? n) && (n <=? 90))%N then ascii_of_N (n + 32) else c.

Definition upper (c : ascii) : ascii :=
  let n := N_of_ascii c in
  if ((97 <=? n) && (n <=? 122))%N then ascii_of_N (n - 32) else c.

Fixpoint map_string (f : ascii → ascii) (s : string) : string :=
  match s with
  | EmptyString => EmptyString
  | String c rest => String (f c) (map_string f rest)
  end.

Definition toLowerCase : string → string := map_string lower.

Definition humanize (r : Entity + CompoundEntityRef) (defaultKind : option string)
  : string :=
  let '(k, ns, n) :=
    match r with
    | inl e => (kind e, meta_namespace (metadata e), meta_name (metadata e))
    | inr c => (ref_kind c, Some (ref_namespace c), ref_name c)
    end in
  let ns := or_else ns "default" in
  let k := toLowerCase k in
  let shown_kind :=
    if truthy defaultKind && String.eqb (toLowerCase (default "" defaultKind)) k
    then "" else k in
  (if String.eqb shown_kind "" then "" else shown_kind +:+ ":")
    +:+ (if String.eqb ns "default" then "" else ns +:+ "/")
    +:+ n.

Definition stringify (e : Entity) : string :=
  toLowerCase (kind e) +:+ ":"
    +:+ toLowerCase (nullish_else (meta_namespace (metadata e)) "default") +:+ "/"
    +:+ toLowerCase (meta_name (metadata e)).

Definition relations_of (e : Entity) (relationType : string)
    (kindFilter : option string) : list CompoundEntityRef :=
  let targets :=
    relation_target <$>
      List.filter (λ r, String.eqb (relation_type r) relationType)
                  (default [] (relations e)) in
  match kindFilter with
  | Some k =>
      if truthy kindFilter then
        List.filter (λ t, String.eqb (toLowerCase (ref_kind t)) (toLowerCase k))
                    targets
      else targets
  | None => targets
  end.

Definition codepoint_compare (a b : string) : Z :=
  match String.compare a b with
  | Lt => -1
  | Eq => 0
  | Gt => 1
  end.

Definition capitalize_ascii (s : string) : string :=
  match s with
  | EmptyString => EmptyString
  | String c rest => String (upper c) (toLowerCase rest)
  end.

Definition pluralize_regular (s : string) : string :=
  if String.eqb s "" then "" else s +:+ "s".

Definition imports : Imports := {|
  humanizeEntityRef := humanize;
  stringifyEntityRef := stringify;
  getEntityRelations := relations_of;
  localeCompare := codepoint_compare;
  capitalize := capitalize_ascii;
  pluralize := pluralize_regular;
|}.

(** Sample data. *)
Definition component (name : string) (title : option string)
    (annotations : option (gmap string string)) : Entity :=
  {| kind := "Component";
     metadata := {| meta_name := name;
                    meta_namespace := Some "default";
                    meta_title := title;
                    meta_annotations := annotations |};
     relations := None |}.

Definition owned_component : Entity :=
  {| kind := "Component";
     metadata := {| meta_name := "billing";
                    meta_namespace := Some "default";
                    meta_title := None;
                    meta_annotations := None |};
     relations := Some [
       {| relation_type := "ownedBy";
          relation_target := {| ref_kind := "group"; ref_namespace := "default";
                                ref_name := "team-a" |} |};
       {| relation_type := "ownedBy";
          relation_target := {| ref_kind := "user"; ref_namespace := "default";
                                ref_name := "jdoe" |} |};
       {| relation_type := "partOf";
          relation_target := {| ref_kind := "system"; ref_namespace := "default";
                                ref_name := "payments" |} |};
       {| relation_type := "partOf";
          relation_target := {| ref_kind := "domain"; ref_namespace := "default";
                                ref_name := "finance" |} |} ] |}.

Definition no_filters : Filters :=
  {| filters_kind := None; filters_type := None; filters_user := None |}.

Definition kind_filter (k : string) : Filters :=
  {| filters_kind := Some {| value := k |};
     filters_type := None; filters_user := None |}.

Definition context (f : Filters) (e : option JsError) : EntityListContext :=
  {| loading := false; error := e; filters := f |}.

Definition plain_props (paginate : option bool) : CatalogTableProps :=
  {| props_columns := None; props_actions := None; props_tableOptions := None;
     props_emptyContent := None; props_subtitle := None;
     props_enablePagination := paginate |}.

Definition nobody_starred (e : Entity) : bool := false.

Definition titled (name title : string) : Entity :=
  component name (Some title) None.

(** An entity with no namespace field. *)
Definition unnamespaced : Entity :=
  {| kind := "Component";
     metadata := {| meta_name := "nons";
                    meta_namespace := None;
                    meta_title := None;
                    meta_annotations := None |};
     relations := None |}.

End Reference.

(** * Properties *)

(** ** JavaScript operators *)

Lemma truthy_Some (s : string) : truthy (Some s) = true ↔ s ≠ "".
Proof.
  simpl. destruct (String.eqb_spec s ""); simpl; split; congruence.
Qed.

Lemma truthy_false (v : option string) :
  truthy v = false ↔ v = None ∨ v = Some "".
Proof.
  destruct v as [s|]; simpl.
  - destruct (String.eqb_spec s ""); simpl; split; try congruence.
    + intros _. right. congruence.
    + intros [?|?]; congruence.
  - split; auto.
Qed.

Lemma or_else_display `{Imports} (entity : Entity) :
  toRef entity = display_name entity.
Proof.
  unfold toRef, display_name, or_else.
  destruct (meta_title (metadata entity)) as [t|]; [|done].
  destruct (String.eqb_spec t ""); case_decide; congruence.
Qed.

(** ** Column selection *)

(** The kind switch, one lemma per arm. *)
Section KindSwitch.
Variables (filters : Filters) (showTypeColumn : bool) (entities : Store).

Let specific := createEntitySpecificColumns filters showTypeColumn entities.

Lemma specific_user :
  value_of (filters_kind filters) = Some "user" → specific = ([], entities).
Proof.
  subst specific. unfold createEntitySpecificColumns. intros ->. reflexivity.
Qed.

Lemma specific_location :
  value_of (filters_kind filters) = Some "location" →
  specific = ([createSpecTypeColumn (negb showTypeColumn);
               createSpecTargetsColumn], entities).
Proof.
  subst specific. unfold createEntitySpecificColumns. intros ->. reflexivity.
Qed.

Lemma specific_default :
  (∀ k, value_of (filters_kind filters) = Some k → k ∉ special_kinds) →
  specific =
    ([createSystemColumn; createOwnerColumn;
      createSpecTypeColumn (negb showTypeColumn); createSpecLifecycleColumn]
     ++ (if forallb (λ e, bool_decide (meta_namespace (metadata e) = Some "default"))
                    entities
         then [] else [createNamespaceColumn]),
     entities).
Proof.
  intros Hk. subst specific. unfold createEntitySpecificColumns.
  assert (Hno : ∀ k, k ∈ special_kinds →
                     bool_decide (value_of (filters_kind filters) = Some k) = false).
  { intros k Hin. apply bool_decide_eq_false. intros Heq. by apply (Hk k). }
  rewrite !Hno by (unfold special_kinds; set_solver).
  unfold bind, Array_every, ret. simpl.
  by destruct (forallb _ entities).
Qed.

(** Column selection only reads the entity array. *)
Lemma createEntitySpecificColumns_frame : specific.2 = entities.
Proof.
  subst specific. unfold createEntitySpecificColumns, bind, Array_every, ret.
  repeat (case_match; simpl; try done).
Qed.
End KindSwitch.

Lemma defaultColumnsFunc_frame (ctx : EntityListContext) (entities : Store) :
  (defaultColumnsFunc ctx entities).2 = entities.
Proof.
  unfold defaultColumnsFunc, bind.
  pose proof (createEntitySpecificColumns_frame (filters ctx)
                (bool_decide (filters_type (filters ctx) = None)) entities) as Hf.
  destruct (createEntitySpecificColumns _ _ entities) as [cols s]. exact Hf.
Qed.

Lemma hidden_iff_type_filter (filters : Filters) :
  negb (bool_decide (filters_type filters = None)) = true
  ↔ is_Some (filters_type filters).
Proof.
  rewrite negb_true_iff, bool_decide_eq_false, <-not_eq_None_Some. done.
Qed.

(** C9. For kind filter [user] the switch contributes no column, and the
    default column selection is exactly the hidden title column, the name
    column with default kind [user], the description column and the tags
    column, in that order. *)
Theorem user_kind_columns (ctx : EntityListContext) (entities : Store) :
  value_of (filters_kind (filters ctx)) = Some "user" →
  (∀ showTypeColumn,
     (createEntitySpecificColumns (filters ctx) showTypeColumn entities).1 = [])
  ∧ (defaultColumnsFunc ctx entities).1
    = [createTitleColumn true; createNameColumn (Some "user");
       createMetadataDescriptionColumn; createTagsColumn].
Proof.
  intros Hkind. split.
  - intros show. by rewrite specific_user.
  - unfold defaultColumnsFunc, bind. rewrite specific_user by done.
    simpl. by rewrite Hkind.
Qed.

Lemma user_kind_columns_witness :
  (defaultColumnsFunc (Reference.context (Reference.kind_filter "user") None) []).1
  = [createTitleColumn true; createNameColumn (Some "user");
     createMetadataDescriptionColumn; createTagsColumn].
Proof.
  apply (user_kind_columns (Reference.context (Reference.kind_filter "user") None) []).
  reflexivity.
Defined.

(** C10. For kind filter [location] the default column selection is the two
    base columns (hidden title, name), then the type column, then the targets
    column, then description and tags; the type column is hidden if and only if
    a type filter is set. *)
Theorem location_kind_columns (ctx : EntityListContext) (entities : Store) :
  value_of (filters_kind (filters ctx)) = Some "location" →
  ∃ hidden : bool,
    (defaultColumnsFunc ctx entities).1
    = [createTitleColumn true; createNameColumn (Some "location");
       createSpecTypeColumn hidden; createSpecTargetsColumn;
       createMetadataDescriptionColumn; createTagsColumn]
    ∧ (hidden = true ↔ is_Some (filters_type (filters ctx))).
Proof.
  intros Hkind. eexists. split.
  - unfold defaultColumnsFunc, bind. rewrite specific_location by done.
    simpl. by rewrite Hkind.
  - apply hidden_iff_type_filter.
Qed.

Lemma location_kind_columns_witness :
  ∃ hidden : bool,
    (defaultColumnsFunc (Reference.context (Reference.kind_filter "location") None)
       [Reference.owned_component]).1
    = [createTitleColumn true; createNameColumn (Some "location");
       createSpecTypeColumn hidden; createSpecTargetsColumn;
       createMetadataDescriptionColumn; createTagsColumn]
    ∧ (hidden = true ↔ is_Some (@None EntityFilter)).
Proof.
  apply (location_kind_columns
           (Reference.context (Reference.kind_filter "location") None)
           [Reference.owned_component]).
  reflexivity.
Defined.

Lemma some_namespace_not_default (entities : Store) :
  forallb (λ e, bool_decide (meta_namespace (metadata e) = Some "default")) entities
  = false
  ↔ ∃ e, e ∈ entities ∧ meta_namespace (metadata e) ≠ Some "default".
Proof.
  induction entities as [|e l IH]; simpl.
  - split; [done|]. intros (e & Hin & _). by apply elem_of_nil in Hin.
  - rewrite andb_false_iff, bool_decide_eq_false, IH. split.
    + intros [Hne|(x & Hin & Hne)].
      * exists e. split; [apply list_elem_of_here|done].
      * exists x. split; [by apply list_elem_of_further|done].
    + intros (x & Hin & Hne). apply elem_of_cons in Hin as [->|Hin]; eauto.
Qed.

(** C3. For a kind filter that is unset or has a value other than [user],
    [domain], [system], [group], [template] and [location], the kind-specific
    columns are system, owner, type and lifecycle, in that order, the type
    column hidden if and only if a type filter is set; the namespace column
    follows if and only if some entity of the list has a [metadata.namespace]
    field that is not the string ["default"].  An entity with no namespace
    field is such an entity, although it belongs to the default namespace. *)
Theorem other_kind_columns (ctx : EntityListContext) (entities : Store) :
  (∀ k, value_of (filters_kind (filters ctx)) = Some k → k ∉ special_kinds) →
  ∃ (hidden : bool) (extra : list TableColumn),
    (defaultColumnsFunc ctx entities).1
    = [createTitleColumn true; createNameColumn (value_of (filters_kind (filters ctx)))]
      ++ ([createSystemColumn; createOwnerColumn; createSpecTypeColumn hidden;
           createSpecLifecycleColumn] ++ extra)
      ++ [createMetadataDescriptionColumn; createTagsColumn]
    ∧ (hidden = true ↔ is_Some (filters_type (filters ctx)))
    ∧ (extra = [createNamespaceColumn] ∨ extra = [])
    ∧ (extra = [createNamespaceColumn]
       ↔ ∃ e, e ∈ entities ∧ meta_namespace (metadata e) ≠ Some "default").
Proof.
  intros Hkind. do 2 eexists. split; [|split; [apply hidden_iff_type_filter|]].
  - unfold defaultColumnsFunc, bind. rewrite specific_default by done. reflexivity.
  - rewrite <-some_namespace_not_default.
    destruct (forallb _ entities); split; auto; split; congruence.
Qed.

Lemma other_kind_columns_witness :
  ∃ (hidden : bool) (extra : list TableColumn),
    (defaultColumnsFunc (Reference.context Reference.no_filters None)
       [Reference.owned_component; Reference.unnamespaced]).1
    = [createTitleColumn true; createNameColumn None]
      ++ ([createSystemColumn; createOwnerColumn; createSpecTypeColumn hidden;
           createSpecLifecycleColumn] ++ extra)
      ++ [createMetadataDescriptionColumn; createTagsColumn]
    ∧ (hidden = true ↔ is_Some (@None EntityFilter))
    ∧ (extra = [createNamespaceColumn] ∨ extra = [])
    ∧ (extra = [createNamespaceColumn]
       ↔ ∃ e, e ∈ [Reference.owned_component; Reference.unnamespaced]
              ∧ meta_namespace (metadata e) ≠ Some "default").
Proof.
  apply (other_kind_columns (Reference.context Reference.no_filters None)
           [Reference.owned_component; Reference.unnamespaced]).
  intros k Hk. discriminate Hk.
Defined.

(** C3, counterexample: a list whose only entity has no namespace field.  No
    entity of the list has a namespace other than ["default"], yet the
    selection for an unset kind filter ends its kind-specific columns with the
    namespace column. *)
Lemma unset_namespace_adds_column :
  (defaultColumnsFunc (Reference.context Reference.no_filters None)
     [Reference.unnamespaced]).1
  = [createTitleColumn true; createNameColumn None;
     createSystemColumn; createOwnerColumn; createSpecTypeColumn false;
     createSpecLifecycleColumn; createNamespaceColumn;
     createMetadataDescriptionColumn; createTagsColumn]
  ∧ ¬ (∃ e, e ∈ [Reference.unnamespaced]
            ∧ ∃ ns, meta_namespace (metadata e) = Some ns ∧ ns ≠ "default").
Proof.
  split; [reflexivity|].
  intros (e & Hin & ns & Hns & _).
  apply elem_of_cons in Hin as [->|Hin]; [discriminate Hns|].
  by apply elem_of_nil in Hin.
Qed.

(** ** The three render outcomes *)

Section Render.
Context `{Imports}.

Lemma LegacyCatalogTable_eq (props : LegacyCatalogTableProps) (entities : Store) :
  ∃ t, LegacyCatalogTable props entities
       = (Table t, merge_sort (not_after refCompare) entities)
     ∧ table_data t = toEntityRow <$> merge_sort (not_after refCompare) entities
     ∧ table_title t = legacy_title props
     ∧ table_actions t = legacy_actions props
     ∧ table_columns t = legacy_columns props
     ∧ table_options t
       = spread (<["paging" := VBool (bool_decide (20 < length (table_data t))%nat)]>
                (<["pageSize" := VNum 20]>
                (<["actionsColumnIndex" := VNum (-1)]>
                (<["loadingType" := VStr "linear"]>
                (<["showEmptyDataSourceMessage" := VBool (negb (legacy_loading props))]>
                (<["padding" := VStr "dense"]>
                (<["pageSizeOptions" := VNumList [20; 50; 100]]> ∅)))))))
                (legacy_options props).
Proof. eexists. split; [reflexivity|]. simpl. done. Qed.

Lemma CatalogTable_error props isStarredEntity ctx entities err :
  error ctx = Some err →
  CatalogTable props isStarredEntity ctx entities
  = (WarningPanel "error" "Could not fetch catalog entities."
       {| language := "text"; text := toString err |},
     (tableColumns props ctx entities).2).
Proof.
  intros Herr. unfold CatalogTable, bind.
  destruct (tableColumns props ctx entities) as [cols s]. by rewrite Herr.
Qed.

Lemma CatalogTable_paginated props isStarredEntity ctx entities :
  error ctx = None →
  flag_set (props_enablePagination props) = true →
  CatalogTable props isStarredEntity ctx entities
  = (PaginatedCatalogTable (tableColumns props ctx entities).1
       (toEntityRow <$> (tableColumns props ctx entities).2),
     (tableColumns props ctx entities).2).
Proof.
  intros Herr Hflag. unfold CatalogTable, bind.
  destruct (tableColumns props ctx entities) as [cols s].
  by rewrite Herr, Hflag.
Qed.

Lemma CatalogTable_legacy props isStarredEntity ctx entities :
  error ctx = None →
  flag_set (props_enablePagination props) = false →
  CatalogTable props isStarredEntity ctx entities
  = LegacyCatalogTable {|
      legacy_columns := (tableColumns props ctx entities).1;
      legacy_emptyContent := props_emptyContent props;
      legacy_loading := loading ctx;
      legacy_title :=
        titleDisplay (filters ctx)
          +:+ " (" +:+ decimal (length (tableColumns props ctx entities).2) +:+ ")";
      legacy_actions :=
        Some (default (defaultActions isStarredEntity) (props_actions props));
      legacy_subtitle := props_subtitle props;
      legacy_options := props_tableOptions props;
    |} (tableColumns props ctx entities).2.
Proof.
  intros Herr Hflag. unfold CatalogTable, bind.
  destruct (tableColumns props ctx entities) as [cols s].
  by rewrite Herr, Hflag.
Qed.

(** With the default columns or an array of columns, computing the columns
    leaves the entity array as it was. *)
Lemma tableColumns_frame props ctx entities :
  (∀ f, props_columns props ≠ Some (ColumnsFunc f)) →
  (tableColumns props ctx entities).2 = entities.
Proof.
  intros Hcols. unfold tableColumns.
  destruct (props_columns props) as [[cols|f]|]; simpl.
  - done.
  - by destruct (Hcols f).
  - apply defaultColumnsFunc_frame.
Qed.

(** C2. The element rendered is the error panel if the context reports an
    error, otherwise the paginated table if the pagination flag is set,
    otherwise the legacy table; with an error [err] it is the warning panel
    whose code snippet holds [err.toString()], whatever the flag. *)
Theorem render_outcome props isStarredEntity ctx entities :
  outcome (CatalogTable props isStarredEntity ctx entities).1
  = match error ctx with
    | Some _ => ErrorPanel
    | None => if flag_set (props_enablePagination props)
              then PaginatedTable else LegacyTable
    end
  ∧ ∀ err, error ctx = Some err →
      (CatalogTable props isStarredEntity ctx entities).1
      = WarningPanel "error" "Could not fetch catalog entities."
          {| language := "text"; text := toString err |}.
Proof.
  split.
  - destruct (error ctx) as [err|] eqn:Herr.
    + by erewrite CatalogTable_error.
    + destruct (flag_set (props_enablePagination props)) eqn:Hflag.
      * by rewrite CatalogTable_paginated.
      * rewrite CatalogTable_legacy by done.
        match goal with
        | |- context [LegacyCatalogTable ?p ?s] =>
            by destruct (LegacyCatalogTable_eq p s) as (t & -> & _)
        end.
  - intros err Herr. by erewrite CatalogTable_error.
Qed.

End Render.

Lemma render_outcome_witness :
  (@CatalogTable Reference.imports (Reference.plain_props (Some true))
     Reference.nobody_starred
     (Reference.context Reference.no_filters
        (Some {| error_name := "Error"; error_message := "fetch failed" |}))
     [Reference.owned_component]).1
  = WarningPanel "error" "Could not fetch catalog entities."
      {| language := "text"; text := "Error: fetch failed" |}.
Proof.
  apply (proj2 (@render_outcome Reference.imports (Reference.plain_props (Some true))
           Reference.nobody_starred
           (Reference.context Reference.no_filters
              (Some {| error_name := "Error"; error_message := "fetch failed" |}))
           [Reference.owned_component])
           {| error_name := "Error"; error_message := "fetch failed" |}).
  reflexivity.
Defined.

(** ** Legacy mode: the sort *)

Section LegacySort.
Context `{Imports}.

(** The sort writes the array it sorts: after [LegacyCatalogTable] the
    shared array holds the sorted entities. *)
Lemma LegacyCatalogTable_store props entities :
  (LegacyCatalogTable props entities).2 = merge_sort (not_after refCompare) entities.
Proof. reflexivity. Qed.

Lemma LegacyCatalogTable_rows props entities :
  rendered_rows (LegacyCatalogTable props entities).1
  = toEntityRow <$> merge_sort (not_after refCompare) entities.
Proof. reflexivity. Qed.

Lemma sort_swaps_pair (a b : Entity) :
  0 < refCompare a b → merge_sort (not_after refCompare) [a; b] = [b; a].
Proof.
  intros Hgt. unfold merge_sort. simpl.
  rewrite decide_False; [done|]. unfold not_after. lia.
Qed.

(** C1. A legacy-mode render (no error, pagination flag off, default columns
    or an array of columns) of a two-element list [a; b] in which the
    comparator puts [b] before [a], whichever way it is asked, leaves the
    caller's array as [b; a]: the render has written the entity list. *)
Theorem legacy_render_reorders_entities props isStarredEntity ctx (a b : Entity) :
  error ctx = None →
  flag_set (props_enablePagination props) = false →
  (∀ f, props_columns props ≠ Some (ColumnsFunc f)) →
  0 < refCompare a b →
  refCompare b a < 0 →
  (CatalogTable props isStarredEntity ctx [a; b]).2 = [b; a]
  ∧ (CatalogTable props isStarredEntity ctx [a; b]).2 ≠ [a; b].
Proof.
  intros Herr Hflag Hcols Hgt Hlt.
  assert (Hstore : (CatalogTable props isStarredEntity ctx [a; b]).2 = [b; a]).
  { rewrite CatalogTable_legacy, LegacyCatalogTable_store by done.
    rewrite tableColumns_frame by done. by apply sort_swaps_pair. }
  split; [done|]. rewrite Hstore. intros Heq.
  injection Heq as Hba _. subst b. lia.
Qed.

(** The other two outcomes, with the default columns or an array of columns,
    leave the array as it was. *)
Lemma error_render_frame props isStarredEntity ctx entities err :
  error ctx = Some err →
  (∀ f, props_columns props ≠ Some (ColumnsFunc f)) →
  (CatalogTable props isStarredEntity ctx entities).2 = entities.
Proof.
  intros Herr Hcols. erewrite CatalogTable_error by done.
  by apply tableColumns_frame.
Qed.

Lemma paginated_render_frame props isStarredEntity ctx entities :
  error ctx = None →
  flag_set (props_enablePagination props) = true →
  (∀ f, props_columns props ≠ Some (ColumnsFunc f)) →
  (CatalogTable props isStarredEntity ctx entities).2 = entities.
Proof.
  intros Herr Hflag Hcols. rewrite CatalogTable_paginated by done.
  by apply tableColumns_frame.
Qed.

(** A comparator that orders any two strings, transitively. *)
Hypothesis localeCompare_total :
  ∀ a b, localeCompare a b ≤ 0 ∨ localeCompare b a ≤ 0.
Hypothesis localeCompare_trans :
  ∀ a b c, localeCompare a b ≤ 0 → localeCompare b c ≤ 0 → localeCompare a c ≤ 0.

#[local] Instance not_after_total : Total (not_after refCompare).
Proof. intros a b. apply localeCompare_total. Qed.

#[local] Instance not_after_trans : Transitive (not_after refCompare).
Proof. intros a b c. apply localeCompare_trans. Qed.

Lemma sorted_rows_ascending (entities : list Entity) :
  StronglySorted (not_after refCompare) entities →
  StronglySorted (rows_ascending display_name) (toEntityRow <$> entities).
Proof.
  apply StronglySorted_fmap. intros a b Hab.
  unfold rows_ascending. simpl. by rewrite <-!or_else_display.
Qed.

(** C4. In legacy mode (no error, pagination flag off) the displayed rows are
    the rows of the entities, in ascending order of display name under
    [localeCompare]: every row's display name compares not greater than that
    of every later row.  The display name is the title if it is set and not
    empty, otherwise the humanized reference with default kind
    [Component]. *)
Theorem legacy_rows_ascending props isStarredEntity ctx entities :
  error ctx = None →
  flag_set (props_enablePagination props) = false →
  let rendered := (CatalogTable props isStarredEntity ctx entities).1 in
  outcome rendered = LegacyTable
  ∧ StronglySorted (rows_ascending display_name) (rendered_rows rendered)
  ∧ rendered_rows rendered
    ≡ₚ toEntityRow <$> (tableColumns props ctx entities).2
  ∧ (∀ a b, refCompare a b = localeCompare (display_name a) (display_name b)).
Proof.
  intros Herr Hflag rendered. subst rendered.
  rewrite CatalogTable_legacy by done.
  rewrite LegacyCatalogTable_rows. repeat split.
  - apply sorted_rows_ascending, StronglySorted_merge_sort; apply _.
  - by rewrite merge_sort_Permutation.
  - intros a b. unfold refCompare. by rewrite !or_else_display.
Qed.

End LegacySort.

(** The code-point comparison of the reference instance is a total preorder. *)
Lemma codepoint_compare_le (a b : string) :
  Reference.codepoint_compare a b ≤ 0 ↔ String.le a b.
Proof.
  unfold Reference.codepoint_compare, String.le, String.leb.
  destruct (String.compare a b); simpl; split; (lia || done).
Qed.

Lemma codepoint_compare_total (a b : string) :
  Reference.codepoint_compare a b ≤ 0 ∨ Reference.codepoint_compare b a ≤ 0.
Proof. rewrite !codepoint_compare_le. apply String.le_total. Qed.

Lemma codepoint_compare_trans (a b c : string) :
  Reference.codepoint_compare a b ≤ 0 → Reference.codepoint_compare b c ≤ 0 →
  Reference.codepoint_compare a c ≤ 0.
Proof. rewrite !codepoint_compare_le. apply transitivity. Qed.

Lemma legacy_render_reorders_entities_witness :
  (@CatalogTable Reference.imports (Reference.plain_props None)
     Reference.nobody_starred (Reference.context Reference.no_filters None)
     [Reference.titled "x1" "b"; Reference.titled "x2" "a"]).2
  = [Reference.titled "x2" "a"; Reference.titled "x1" "b"]
  ∧ (@CatalogTable Reference.imports (Reference.plain_props None)
       Reference.nobody_starred (Reference.context Reference.no_filters None)
       [Reference.titled "x1" "b"; Reference.titled "x2" "a"]).2
    ≠ [Reference.titled "x1" "b"; Reference.titled "x2" "a"].
Proof.
  apply (@legacy_render_reorders_entities Reference.imports
           (Reference.plain_props None) Reference.nobody_starred
           (Reference.context Reference.no_filters None)
           (Reference.titled "x1" "b") (Reference.titled "x2" "a")).
  - reflexivity.
  - reflexivity.
  - intros f Hf. discriminate Hf.
  - reflexivity.
  - reflexivity.
Defined.

Lemma legacy_rows_ascending_witness :
  StronglySorted (@rows_ascending Reference.imports (@display_name Reference.imports))
    (rendered_rows
       (@CatalogTable Reference.imports (Reference.plain_props None)
          Reference.nobody_starred (Reference.context Reference.no_filters None)
          [Reference.titled "x1" "b"; Reference.titled "x2" "a"]).1).
Proof.
  apply (@legacy_rows_ascending Reference.imports
           codepoint_compare_total codepoint_compare_trans
           (Reference.plain_props None) Reference.nobody_starred
           (Reference.context Reference.no_filters None)
           [Reference.titled "x1" "b"; Reference.titled "x2" "a"]);
    reflexivity.
Defined.

(** C4, counterexample: with an empty title the rows are not in ascending
    order of "title if set, else humanized reference".  The entity with the
    empty title is sorted by its humanized reference ["b"], after the entity
    titled ["a"], although the empty string compares before ["a"]. *)
Lemma empty_title_sorted_by_reference :
  rendered_rows
    (@CatalogTable Reference.imports (Reference.plain_props None)
       Reference.nobody_starred (Reference.context Reference.no_filters None)
       [Reference.titled "b" ""; Reference.titled "x2" "a"]).1
  = @toEntityRow Reference.imports
      <$> [Reference.titled "x2" "a"; Reference.titled "b" ""]
  ∧ ¬ Sorted (@rows_ascending Reference.imports
                (@spec_display_name Reference.imports))
        (rendered_rows
           (@CatalogTable Reference.imports (Reference.plain_props None)
              Reference.nobody_starred (Reference.context Reference.no_filters None)
              [Reference.titled "b" ""; Reference.titled "x2" "a"]).1).
Proof.
  split; [reflexivity|].
  intros Hsorted. apply Sorted_inv in Hsorted as [_ Hhd].
  apply HdRel_inv in Hhd. vm_compute in Hhd. by apply Hhd.
Qed.

(** ** Legacy mode: paging options *)

Section LegacyPaging.
Context `{Imports}.

Lemma legacy_row_count props entities :
  length (rendered_rows (LegacyCatalogTable props entities).1) = length entities.
Proof.
  rewrite LegacyCatalogTable_rows, length_fmap.
  apply Permutation_length, merge_sort_Permutation.
Qed.

(** C5. In legacy mode, when the caller's table options define none of
    [paging], [pageSize] and [pageSizeOptions], the table widget is given
    [paging] true exactly when there are more than 20 rows, [pageSize] 20 and
    [pageSizeOptions] 20, 50, 100. *)
Theorem legacy_paging props isStarredEntity ctx entities :
  error ctx = None →
  flag_set (props_enablePagination props) = false →
  (∀ o, props_tableOptions props = Some o →
        o !! "paging" = None ∧ o !! "pageSize" = None
        ∧ o !! "pageSizeOptions" = None) →
  ∃ (t : TableProps) (paging : bool),
    (CatalogTable props isStarredEntity ctx entities).1 = Table t
    ∧ table_options t !! "paging" = Some (VBool paging)
    ∧ (paging = true ↔ (20 < length (table_data t))%nat)
    ∧ (length (table_data t) = 20%nat → paging = false)
    ∧ (length (table_data t) = 21%nat → paging = true)
    ∧ table_options t !! "pageSize" = Some (VNum 20)
    ∧ table_options t !! "pageSizeOptions" = Some (VNumList [20; 50; 100])
    ∧ length (table_data t) = length (tableColumns props ctx entities).2.
Proof.
  intros Herr Hflag Hopts.
  rewrite CatalogTable_legacy by done.
  match goal with
  | |- context [LegacyCatalogTable ?p ?s] =>
      pose proof (legacy_row_count p s) as Hlen;
      destruct (LegacyCatalogTable_eq p s) as (t & Heq & _ & _ & _ & _ & Ho)
  end.
  rewrite Heq in Hlen |- *. simpl in Hlen, Ho.
  exists t, (bool_decide (20 < length (table_data t))%nat).
  assert (Hkeep : default ∅ (props_tableOptions props) !! "paging" = None
                  ∧ default ∅ (props_tableOptions props) !! "pageSize" = None
                  ∧ default ∅ (props_tableOptions props) !! "pageSizeOptions"
                    = None).
  { destruct (props_tableOptions props) as [o|] eqn:Eo; simpl.
    - by apply Hopts.
    - by rewrite !lookup_empty. }
  destruct Hkeep as (Hpaging & Hsize & Hsizes).
  rewrite Ho. unfold spread.
  rewrite !lookup_union_r by done.
  split; [done|]. split; [done|]. split; [apply bool_decide_eq_true|].
  split; [intros ->; by apply bool_decide_eq_false_2; lia|].
  split; [intros ->; by apply bool_decide_eq_true_2; lia|].
  done.
Qed.

End LegacyPaging.

Lemma legacy_paging_witness :
  ∃ (t : TableProps) (paging : bool),
    (@CatalogTable Reference.imports (Reference.plain_props None)
       Reference.nobody_starred (Reference.context Reference.no_filters None)
       (replicate 21 Reference.owned_component)).1 = Table t
    ∧ table_options t !! "paging" = Some (VBool paging)
    ∧ (paging = true ↔ (20 < length (table_data t))%nat)
    ∧ (length (table_data t) = 20%nat → paging = false)
    ∧ (length (table_data t) = 21%nat → paging = true)
    ∧ table_options t !! "pageSize" = Some (VNum 20)
    ∧ table_options t !! "pageSizeOptions" = Some (VNumList [20; 50; 100])
    ∧ length (table_data t)
      = length (@tableColumns (Reference.plain_props None)
                  (Reference.context Reference.no_filters None)
                  (replicate 21 Reference.owned_component)).2.
Proof.
  apply (@legacy_paging Reference.imports (Reference.plain_props None)
           Reference.nobody_starred (Reference.context Reference.no_filters None)
           (replicate 21 Reference.owned_component)).
  - reflexivity.
  - reflexivity.
  - intros o Ho. discriminate Ho.
Defined.

(** ** Legacy mode: the title *)

Lemma append_assoc (a b c : string) : (a +:+ b) +:+ c = a +:+ b +:+ c.
Proof.
  induction a as [|ch a IH]; [done|].
  change (String ch ((a +:+ b) +:+ c) = String ch (a +:+ b +:+ c)).
  by f_equal.
Qed.

Lemma join_snoc (sep : string) (l : list string) (x : string) :
  l ≠ [] → join sep (l ++ [x]) = join sep l +:+ sep +:+ x.
Proof.
  unfold join. induction l as [|a l IH]; [done|]. intros _.
  destruct l as [|b l].
  - simpl. done.
  - change (String.concat sep ((a :: b :: l) ++ [x]))
      with (a +:+ sep +:+ String.concat sep ((b :: l) ++ [x])).
    rewrite IH by done.
    change (String.concat sep (a :: b :: l))
      with (a +:+ sep +:+ String.concat sep (b :: l)).
    by rewrite !append_assoc.
Qed.

Section LegacyTitle.
Context `{Imports}.

(** What the title needs of the two string libraries. *)
Hypothesis capitalize_all : capitalize "all" = "All".
Hypothesis pluralize_empty : pluralize "" = "".
Hypothesis pluralize_component : pluralize "component" = "components".

Lemma or_else_empty (v : option string) :
  or_else v "" = match v with Some s => s | None => "" end.
Proof.
  destruct v as [s|]; simpl; [|done]. by destruct (String.eqb_spec s "").
Qed.

(** The segments the code joins are the segments of the specification. *)
Lemma titleDisplay_segments (filters : Filters) :
  titleDisplay filters
  = join " " (List.filter (λ s, negb (String.eqb s ""))
                          (spec_filter_segments filters)).
Proof.
  unfold titleDisplay, spec_filter_segments. rewrite !or_else_empty.
  assert (nullish_else (value_of (filters_user filters)) "all"
          = match filters_user filters with
            | Some f => value f
            | None => "all"
            end) as ->.
  { by destruct (filters_user filters). }
  assert (pluralize (match value_of (filters_kind filters) with
                     | Some s => s
                     | None => ""
                     end)
          = match filters_kind filters with
            | Some f => pluralize (value f)
            | None => ""
            end) as ->.
  { destruct (filters_kind filters); simpl; [done|apply pluralize_empty]. }
  assert (match value_of (filters_type filters) with
          | Some s => s
          | None => ""
          end
          = match filters_type filters with Some f => value f | None => "" end)
    as ->.
  { by destruct (filters_type filters). }
  reflexivity.
Qed.

Lemma spec_title_segments (filters : Filters) (count : nat) :
  spec_title filters count
  = join " " (List.filter (λ s, negb (String.eqb s ""))
                (spec_filter_segments filters ++ ["(" +:+ decimal count +:+ ")"])).
Proof. reflexivity. Qed.

Lemma some_segment (l : list string) :
  Exists (λ s, s ≠ "") l → List.filter (λ s, negb (String.eqb s "")) l ≠ [].
Proof.
  induction 1 as [s l Hs|s l _ IH]; simpl; destruct (String.eqb_spec s ""); done.
Qed.

Lemma no_segment (l : list string) :
  Forall (λ s, s = "") l → List.filter (λ s, negb (String.eqb s "")) l = [].
Proof.
  induction 1 as [|s l Hs _ IH]; simpl; [done|].
  by destruct (String.eqb_spec s "").
Qed.

Lemma title_with_segment (filters : Filters) (count : nat) :
  Exists (λ s, s ≠ "") (spec_filter_segments filters) →
  titleDisplay filters +:+ " (" +:+ decimal count +:+ ")"
  = spec_title filters count.
Proof.
  intros Hsome. rewrite titleDisplay_segments, spec_title_segments.
  rewrite List.filter_app.
  change (List.filter (λ s, negb (String.eqb s "")) ["(" +:+ decimal count +:+ ")"])
    with ["(" +:+ decimal count +:+ ")"].
  rewrite join_snoc by by apply some_segment.
  reflexivity.
Qed.

Lemma title_without_segment (filters : Filters) (count : nat) :
  Forall (λ s, s = "") (spec_filter_segments filters) →
  titleDisplay filters +:+ " (" +:+ decimal count +:+ ")"
  = " (" +:+ decimal count +:+ ")".
Proof.
  intros Hnone. rewrite titleDisplay_segments, no_segment by done. reflexivity.
Qed.

(** C6. In legacy mode the table title is made of the capitalized user filter
    (or [all] when it is unset; a user filter whose value is the empty string
    is not replaced by [all]), the type filter and the pluralized kind filter,
    empty segments left out and one space between segments, followed by a
    space and the row count in parentheses.  When one of the three segments is
    not empty (always so when the user filter is unset), that is the four
    segments joined by single spaces; when all three are empty the title is
    the count in parentheses after one space.  With no user filter, type filter
    [service], kind filter [component] and three entities the title is
    ["All service components (3)"]. *)
Theorem legacy_table_title props isStarredEntity ctx entities :
  error ctx = None →
  flag_set (props_enablePagination props) = false →
  ∃ t : TableProps,
    (CatalogTable props isStarredEntity ctx entities).1 = Table t
    ∧ length (table_data t) = length (tableColumns props ctx entities).2
    ∧ (Exists (λ s, s ≠ "") (spec_filter_segments (filters ctx)) →
       table_title t = spec_title (filters ctx) (length (table_data t)))
    ∧ (filters_user (filters ctx) = None →
       table_title t = spec_title (filters ctx) (length (table_data t)))
    ∧ (Forall (λ s, s = "") (spec_filter_segments (filters ctx)) →
       table_title t = " (" +:+ decimal (length (table_data t)) +:+ ")")
    ∧ (filters ctx = {| filters_kind := Some {| value := "component" |};
                        filters_type := Some {| value := "service" |};
                        filters_user := None |} →
       length (table_data t) = 3%nat →
       table_title t = "All service components (3)").
Proof.
  intros Herr Hflag.
  rewrite CatalogTable_legacy by done.
  match goal with
  | |- context [LegacyCatalogTable ?p ?s] =>
      pose proof (legacy_row_count p s) as Hlen;
      destruct (LegacyCatalogTable_eq p s) as (t & Heq & _ & Htitle & _)
  end.
  rewrite Heq in Hlen |- *. simpl in Hlen, Htitle.
  exists t. split; [done|]. split; [done|].
  assert (Hsome : Exists (λ s, s ≠ "") (spec_filter_segments (filters ctx)) →
                  table_title t = spec_title (filters ctx) (length (table_data t))).
  { intros Hsome. rewrite Htitle, Hlen. by apply title_with_segment. }
  assert (Hunset : filters_user (filters ctx) = None →
                   Exists (λ s, s ≠ "") (spec_filter_segments (filters ctx))).
  { intros Huser. unfold spec_filter_segments. rewrite Huser, capitalize_all.
    by apply Exists_cons_hd. }
  split; [done|]. split; [by auto|]. split.
  - intros Hnone. rewrite Htitle, Hlen. by apply title_without_segment.
  - intros Hfilters Hthree. rewrite Hsome by (apply Hunset; by rewrite Hfilters).
    rewrite Hfilters, Hthree. unfold spec_title. simpl.
    rewrite capitalize_all, pluralize_component. reflexivity.
Qed.

End LegacyTitle.

Lemma legacy_table_title_witness :
  ∃ t : TableProps,
    (@CatalogTable Reference.imports (Reference.plain_props None)
       Reference.nobody_starred
       (Reference.context
          {| filters_kind := Some {| value := "component" |};
             filters_type := Some {| value := "service" |};
             filters_user := None |} None)
       (replicate 3 Reference.owned_component)).1 = Table t
    ∧ table_title t = "All service components (3)".
Proof.
  destruct (@legacy_table_title Reference.imports eq_refl eq_refl eq_refl
              (Reference.plain_props None)
              Reference.nobody_starred
              (Reference.context
                 {| filters_kind := Some {| value := "component" |};
                    filters_type := Some {| value := "service" |};
                    filters_user := None |} None)
              (replicate 3 Reference.owned_component))
    as (t & Ht & Hlen & _ & _ & _ & Hexample).
  - reflexivity.
  - reflexivity.
  - exists t. split; [exact Ht|]. apply Hexample; [reflexivity|].
    rewrite Hlen. reflexivity.
Defined.

(** C6, counterexample: a user filter whose value is the empty string, no type
    filter and no kind filter, two entities.  [??] keeps the empty value, the
    three filter segments are empty, and the title is the count after a space,
    not the count alone as "empty segments omitted, single spaces between
    segments" would have it. *)
Lemma empty_user_filter_title :
  ∃ t : TableProps,
    (@CatalogTable Reference.imports (Reference.plain_props None)
       Reference.nobody_starred
       (Reference.context
          {| filters_kind := None; filters_type := None;
             filters_user := Some {| value := "" |} |} None)
       [Reference.titled "x1" "b"; Reference.titled "x2" "a"]).1 = Table t
    ∧ table_title t = " (2)"
    ∧ @spec_title Reference.imports
        {| filters_kind := None; filters_type := None;
           filters_user := Some {| value := "" |} |}
        (length (table_data t)) = "(2)"
    ∧ table_title t
      ≠ @spec_title Reference.imports
          {| filters_kind := None; filters_type := None;
             filters_user := Some {| value := "" |} |}
          (length (table_data t)).
Proof.
  eexists. split; [reflexivity|]. simpl.
  split; [reflexivity|]. split; [reflexivity|]. discriminate.
Qed.

(** ** Row projection *)

(** C7. The row of an entity carries the entity's [ownedBy] relations (no kind
    filter) and its [partOf] relations of kind [system]; the two title strings
    are the humanized names of those relations (default kinds [group] and
    [system]) joined with [", "], and are empty when there is no such relation;
    [entityRef] is [stringifyEntityRef] of the entity.  The projection is a
    function of the entity alone: it neither reads nor writes the entity
    array. *)
Theorem toEntityRow_fields `{Imports} (entity : Entity) :
  let row := toEntityRow entity in
  let owners := getEntityRelations entity RELATION_OWNED_BY None in
  let systems := getEntityRelations entity RELATION_PART_OF (Some "system") in
  row_entity row = entity
  ∧ ownedByRelations (resolved row) = owners
  ∧ partOfSystemRelations (resolved row) = systems
  ∧ ownedByRelationsTitle (resolved row)
    = join ", " ((λ r, humanizeEntityRef (inr r) (Some "group")) <$> owners)
  ∧ partOfSystemRelationTitle (resolved row)
    = join ", " ((λ r, humanizeEntityRef (inr r) (Some "system")) <$> systems)
  ∧ (owners = [] → ownedByRelationsTitle (resolved row) = "")
  ∧ (systems = [] → partOfSystemRelationTitle (resolved row) = "")
  ∧ entityRef (resolved row) = stringifyEntityRef entity
  ∧ (∀ entities : Store,
       Array_map toEntityRow entities = (toEntityRow <$> entities, entities)).
Proof.
  simpl. repeat split; try done.
  - by intros ->.
  - by intros ->.
Qed.

Lemma toEntityRow_fields_witness :
  ownedByRelationsTitle
    (resolved (@toEntityRow Reference.imports Reference.owned_component))
  = "team-a, user:jdoe"
  ∧ partOfSystemRelationTitle
      (resolved (@toEntityRow Reference.imports Reference.owned_component))
    = "payments"
  ∧ ownedByRelationsTitle
      (resolved (@toEntityRow Reference.imports (Reference.titled "x" "X")))
    = "".
Proof.
  pose proof (@toEntityRow_fields Reference.imports Reference.owned_component)
    as (_ & _ & _ & Howners & Hsystems & _).
  pose proof (@toEntityRow_fields Reference.imports (Reference.titled "x" "X"))
    as (_ & _ & _ & _ & _ & Hnone & _).
  split; [exact Howners|]. split; [exact Hsystems|].
  apply Hnone. reflexivity.
Defined.

(** ** Default row actions *)

Section DefaultActions.
Context `{Imports}.

Lemma url_handler (url : option string) :
  (Some (negb (truthy url)) = Some true ↔ url = None ∨ url = Some "")
  ∧ (url = None ∨ url = Some "" → open_in_new url = [])
  ∧ (∀ u, url = Some u → ¬ (url = None ∨ url = Some "") →
       Some (negb (truthy url)) = Some false
       ∧ open_in_new url = [WindowOpen u "_blank"]).
Proof.
  pose proof (truthy_false url) as Hfalse.
  unfold open_in_new. destruct (truthy url) eqn:Htruthy; simpl.
  - assert (Hpresent : ¬ (url = None ∨ url = Some "")).
    { intros Habsent. apply Hfalse in Habsent. congruence. }
    split; [split; [congruence|done]|]. split; [done|].
    intros u -> _. done.
  - assert (Habsent : url = None ∨ url = Some "") by by apply Hfalse.
    split; [done|]. split.
    + intros _. by destruct url.
    + intros u _ Hpresent. by destruct Hpresent.
Qed.

Lemma viewAction_spec :
  url_action_spec (λ url, url = None ∨ url = Some "")
    ANNOTATION_VIEW_URL "View" viewAction.
Proof. intros row. split; [done|]. apply url_handler. Qed.

Lemma editAction_spec :
  url_action_spec (λ url, url = None ∨ url = Some "")
    ANNOTATION_EDIT_URL "Edit" editAction.
Proof. intros row. split; [done|]. apply url_handler. Qed.

(** C8. In legacy mode (no error, pagination flag off), when the caller
    passes no actions, the table is given the View, Edit and favorite
    actions.  View is disabled if and only if the view-URL annotation is
    absent or empty; its handler then does nothing, and otherwise opens the
    URL in a new browsing context.  Edit does the same with the edit-URL
    annotation.  Both are total: a missing annotation yields a disabled
    action. *)
Theorem default_actions_legacy props isStarredEntity ctx entities :
  error ctx = None →
  flag_set (props_enablePagination props) = false →
  props_actions props = None →
  rendered_actions (CatalogTable props isStarredEntity ctx entities).1
  = Some [viewAction; editAction; starAction isStarredEntity]
  ∧ url_action_spec (λ url, url = None ∨ url = Some "")
      ANNOTATION_VIEW_URL "View" viewAction
  ∧ url_action_spec (λ url, url = None ∨ url = Some "")
      ANNOTATION_EDIT_URL "Edit" editAction.
Proof.
  intros Herr Hflag Hactions.
  split; [|split; [apply viewAction_spec|apply editAction_spec]].
  rewrite CatalogTable_legacy by done.
  match goal with
  | |- context [LegacyCatalogTable ?p ?s] =>
      destruct (LegacyCatalogTable_eq p s) as (t & Heq & _ & _ & Hact & _)
  end.
  rewrite Heq. simpl in Hact |- *. by rewrite Hact, Hactions.
Qed.

End DefaultActions.

Lemma default_actions_legacy_witness :
  rendered_actions
    (@CatalogTable Reference.imports (Reference.plain_props None)
       Reference.nobody_starred (Reference.context Reference.no_filters None)
       [Reference.owned_component]).1
  = Some [viewAction; editAction; starAction Reference.nobody_starred].
Proof.
  apply (@default_actions_legacy Reference.imports (Reference.plain_props None)
           Reference.nobody_starred (Reference.context Reference.no_filters None)
           [Reference.owned_component]);
    reflexivity.
Defined.

(** C8, counterexample.  With the pagination flag set and no actions from the
    caller, the rendered element carries no row actions; and an entity whose
    view-URL annotation is present but empty has a disabled View action, so
    "disabled if and only if the annotation is absent" fails. *)
Lemma default_actions_not_always_present :
  rendered_actions
    (@CatalogTable Reference.imports (Reference.plain_props (Some true))
       Reference.nobody_starred (Reference.context Reference.no_filters None)
       [Reference.owned_component]).1
  = None
  ∧ annotation
      (Reference.component "docs" None (Some {[ANNOTATION_VIEW_URL := ""]}))
      ANNOTATION_VIEW_URL
    = Some ""
  ∧ disabled
      (viewAction
         (@toEntityRow Reference.imports
            (Reference.component "docs" None (Some {[ANNOTATION_VIEW_URL := ""]}))))
    = Some true
  ∧ ¬ url_action_spec (λ url, url = None) ANNOTATION_VIEW_URL "View" viewAction.
Proof.
  split; [reflexivity|]. split; [reflexivity|]. split; [reflexivity|].
  intros Hspec.
  destruct (Hspec (@toEntityRow Reference.imports
                     (Reference.component "docs" None
                        (Some {[ANNOTATION_VIEW_URL := ""]}))))
    as (_ & Hdisabled & _).
  assert (Hnone : annotation
                    (Reference.component "docs" None
                       (Some {[ANNOTATION_VIEW_URL := ""]}))
                    ANNOTATION_VIEW_URL = None)
    by (apply Hdisabled; reflexivity).
  discriminate Hnone.
Qed.

(** * Further properties of the column selection *)

Section KindArms.
Variables (filters : Filters) (showTypeColumn : bool) (entities : Store).

Lemma specific_owner_only (k : string) :
  value_of (filters_kind filters) = Some k →
  k = "domain" ∨ k = "system" →
  createEntitySpecificColumns filters showTypeColumn entities
  = ([createOwnerColumn], entities).
Proof.
  unfold createEntitySpecificColumns. intros -> [-> | ->]; reflexivity.
Qed.

Lemma specific_type_only (k : string) :
  value_of (filters_kind filters) = Some k →
  k = "group" ∨ k = "template" →
  createEntitySpecificColumns filters showTypeColumn entities
  = ([createSpecTypeColumn (negb showTypeColumn)], entities).
Proof.
  unfold createEntitySpecificColumns. intros -> [-> | ->]; reflexivity.
Qed.

(** The arms of the switch, one after the other. *)
Lemma specific_cases :
  let specific := (createEntitySpecificColumns filters showTypeColumn entities).1 in
  let type_column := createSpecTypeColumn (negb showTypeColumn) in
  let base := [createSystemColumn; createOwnerColumn; type_column;
               createSpecLifecycleColumn] in
  (value_of (filters_kind filters) = Some "user" ∧ specific = [])
  ∨ ((value_of (filters_kind filters) = Some "domain"
      ∨ value_of (filters_kind filters) = Some "system")
     ∧ specific = [createOwnerColumn])
  ∨ ((value_of (filters_kind filters) = Some "group"
      ∨ value_of (filters_kind filters) = Some "template")
     ∧ specific = [type_column])
  ∨ (value_of (filters_kind filters) = Some "location"
     ∧ specific = [type_column; createSpecTargetsColumn])
  ∨ ((∀ k, value_of (filters_kind filters) = Some k → k ∉ special_kinds)
     ∧ (specific = base ∨ specific = base ++ [createNamespaceColumn])
     ∧ (specific = base ++ [createNamespaceColumn]
        ↔ ∃ e, e ∈ entities ∧ meta_namespace (metadata e) ≠ Some "default")).
Proof.
  simpl.
  assert (Hcases : (∃ k, value_of (filters_kind filters) = Some k
                         ∧ k ∈ special_kinds)
                   ∨ ¬ (∃ k, value_of (filters_kind filters) = Some k
                             ∧ k ∈ special_kinds)).
  { destruct (value_of (filters_kind filters)) as [k|]; [|right; by intros (? & ? & ?)].
    destruct (decide (k ∈ special_kinds)); [left; eauto|].
    right. intros (k' & Hk' & Hin). congruence. }
  destruct Hcases as [(k & Hk & Hin)|Hother].
  - unfold special_kinds in Hin.
    repeat (apply elem_of_cons in Hin as [->|Hin]);
      [| | | | | |by apply elem_of_nil in Hin].
    + left. by rewrite specific_user.
    + right; left. erewrite specific_owner_only; eauto.
    + right; left. erewrite specific_owner_only; eauto.
    + right; right; left. erewrite specific_type_only; eauto.
    + right; right; left. erewrite specific_type_only; eauto.
    + right; right; right; left. by rewrite specific_location.
  - do 4 right.
    assert (Hk : ∀ k, value_of (filters_kind filters) = Some k → k ∉ special_kinds).
    { intros k Hk Hin. apply Hother. eauto. }
    split; [done|]. rewrite specific_default by done. simpl.
    rewrite <-some_namespace_not_default.
    destruct (forallb _ entities); simpl; split; auto; split; congruence.
Qed.
End KindArms.

(** X1. For kind filter [domain] or [system] the default selection is the
    hidden title column, the name column, the owner column, description and
    tags: no type column whatever the type filter, no namespace column whatever
    the entities, and the entity array is left as it was. *)
Theorem owner_only_columns (ctx : EntityListContext) (entities : Store) (k : string) :
  value_of (filters_kind (filters ctx)) = Some k →
  k = "domain" ∨ k = "system" →
  defaultColumnsFunc ctx entities
  = ([createTitleColumn true; createNameColumn (Some k); createOwnerColumn;
      createMetadataDescriptionColumn; createTagsColumn], entities).
Proof.
  intros Hkind Hk. unfold defaultColumnsFunc, bind.
  erewrite specific_owner_only by done. simpl. by rewrite Hkind.
Qed.

Lemma owner_only_columns_witness :
  defaultColumnsFunc
    (Reference.context
       {| filters_kind := Some {| value := "system" |};
          filters_type := Some {| value := "service" |};
          filters_user := None |} None)
    [Reference.owned_component]
  = ([createTitleColumn true; createNameColumn (Some "system"); createOwnerColumn;
      createMetadataDescriptionColumn; createTagsColumn],
     [Reference.owned_component]).
Proof.
  apply (owner_only_columns
           (Reference.context
              {| filters_kind := Some {| value := "system" |};
                 filters_type := Some {| value := "service" |};
                 filters_user := None |} None)
           [Reference.owned_component] "system").
  - reflexivity.
  - right. reflexivity.
Defined.

(** X2. For kind filter [group] or [template] the default selection is the
    hidden title column, the name column, the type column, description and
    tags; the type column is hidden if and only if a type filter is set. *)
Theorem type_only_columns (ctx : EntityListContext) (entities : Store) (k : string) :
  value_of (filters_kind (filters ctx)) = Some k →
  k = "group" ∨ k = "template" →
  ∃ hidden : bool,
    defaultColumnsFunc ctx entities
    = ([createTitleColumn true; createNameColumn (Some k);
        createSpecTypeColumn hidden;
        createMetadataDescriptionColumn; createTagsColumn], entities)
    ∧ (hidden = true ↔ is_Some (filters_type (filters ctx))).
Proof.
  intros Hkind Hk. eexists. split; [|apply hidden_iff_type_filter].
  unfold defaultColumnsFunc, bind.
  erewrite specific_type_only by done. simpl. by rewrite Hkind.
Qed.

Lemma type_only_columns_witness :
  ∃ hidden : bool,
    defaultColumnsFunc (Reference.context (Reference.kind_filter "template") None)
      [Reference.owned_component]
    = ([createTitleColumn true; createNameColumn (Some "template");
        createSpecTypeColumn hidden;
        createMetadataDescriptionColumn; createTagsColumn],
       [Reference.owned_component])
    ∧ (hidden = true ↔ is_Some (@None EntityFilter)).
Proof.
  apply (type_only_columns
           (Reference.context (Reference.kind_filter "template") None)
           [Reference.owned_component] "template").
  - reflexivity.
  - right. reflexivity.
Defined.

Lemma default_columns_split (ctx : EntityListContext) (entities : Store) :
  (defaultColumnsFunc ctx entities).1
  = [createTitleColumn true; createNameColumn (value_of (filters_kind (filters ctx)))]
    ++ (createEntitySpecificColumns (filters ctx)
          (bool_decide (filters_type (filters ctx) = None)) entities).1
    ++ [createMetadataDescriptionColumn; createTagsColumn].
Proof.
  unfold defaultColumnsFunc, bind.
  by destruct (createEntitySpecificColumns _ _ entities).
Qed.

Lemma all_default_ext (s1 s2 : Store) :
  ((∃ e, e ∈ s1 ∧ meta_namespace (metadata e) ≠ Some "default")
   ↔ (∃ e, e ∈ s2 ∧ meta_namespace (metadata e) ≠ Some "default")) →
  forallb (λ e, bool_decide (meta_namespace (metadata e) = Some "default")) s1
  = forallb (λ e, bool_decide (meta_namespace (metadata e) = Some "default")) s2.
Proof.
  rewrite <-!some_namespace_not_default.
  do 2 destruct (forallb _ _); intros [H1 H2]; auto.
  symmetry. auto.
Qed.

(** X3. The default column selection depends on its inputs only through the
    kind filter's value, whether a type filter is set, and whether some entity
    has a namespace field other than ["default"]: two contexts and entity lists
    that agree on these three give the same columns, whatever their loading
    flag, error, user filter, type filter value and other entity data. *)
Theorem columns_depend_only_on (ctx1 ctx2 : EntityListContext) (s1 s2 : Store) :
  value_of (filters_kind (filters ctx1)) = value_of (filters_kind (filters ctx2)) →
  (is_Some (filters_type (filters ctx1)) ↔ is_Some (filters_type (filters ctx2))) →
  ((∃ e, e ∈ s1 ∧ meta_namespace (metadata e) ≠ Some "default")
   ↔ (∃ e, e ∈ s2 ∧ meta_namespace (metadata e) ≠ Some "default")) →
  (defaultColumnsFunc ctx1 s1).1 = (defaultColumnsFunc ctx2 s2).1.
Proof.
  intros Hkind Htype Hns.
  assert (Hshow : bool_decide (filters_type (filters ctx1) = None)
                  = bool_decide (filters_type (filters ctx2) = None)).
  { apply bool_decide_ext. rewrite !eq_None_not_Some. by rewrite Htype. }
  apply all_default_ext in Hns.
  rewrite !default_columns_split, Hkind, Hshow. do 2 f_equal.
  unfold createEntitySpecificColumns, bind, Array_every, ret. cbv beta.
  rewrite Hkind.
  repeat (case_match; simpl; rewrite ?Hns; try done).
Qed.

Lemma columns_depend_only_on_witness :
  (defaultColumnsFunc
     {| loading := true; error := None;
        filters := {| filters_kind := None;
                      filters_type := Some {| value := "service" |};
                      filters_user := Some {| value := "owned" |} |} |}
     [Reference.owned_component]).1
  = (defaultColumnsFunc
       {| loading := false;
          error := Some {| error_name := "Error"; error_message := "x" |};
          filters := {| filters_kind := None;
                        filters_type := Some {| value := "website" |};
                        filters_user := None |} |}
       [Reference.titled "a" "A"; Reference.titled "b" "B"]).1.
Proof.
  apply (columns_depend_only_on
           {| loading := true; error := None;
              filters := {| filters_kind := None;
                            filters_type := Some {| value := "service" |};
                            filters_user := Some {| value := "owned" |} |} |}
           {| loading := false;
              error := Some {| error_name := "Error"; error_message := "x" |};
              filters := {| filters_kind := None;
                            filters_type := Some {| value := "website" |};
                            filters_user := None |} |}
           [Reference.owned_component]
           [Reference.titled "a" "A"; Reference.titled "b" "B"]).
  - reflexivity.
  - simpl. split; intros _; eauto.
  - split; intros (e & Hin & Hne); exfalso;
      repeat (apply elem_of_cons in Hin as [->|Hin]);
      try (by apply Hne); by apply elem_of_nil in Hin.
Defined.

(** Membership in a list written out: [listed] proves it, [not_listed H]
    refutes a hypothesis [H] claiming it of an element that is not there. *)
Ltac listed :=
  repeat first [apply list_elem_of_here | apply list_elem_of_further].
Ltac not_listed H :=
  repeat (apply elem_of_cons in H as [H|H]; [discriminate H|]);
  by apply elem_of_nil in H.

Lemma special_kind_not_other (filters : Filters) (k : string) :
  value_of (filters_kind filters) = Some k →
  k ∈ special_kinds →
  ¬ (∀ k', value_of (filters_kind filters) = Some k' → k' ∉ special_kinds).
Proof. intros Hk Hin Hother. by apply (Hother k). Qed.

(** X4. Over all kinds: the namespace column is part of the default selection
    if and only if the kind filter is unset or has none of the six values with
    a column list of their own, and some entity of the list has a namespace
    field other than ["default"].  For [user], [domain], [system], [group],
    [template] and [location] it is never shown, whatever the entities. *)
Theorem namespace_column_iff (ctx : EntityListContext) (entities : Store) :
  createNamespaceColumn ∈ (defaultColumnsFunc ctx entities).1
  ↔ (∀ k, value_of (filters_kind (filters ctx)) = Some k → k ∉ special_kinds)
    ∧ ∃ e, e ∈ entities ∧ meta_namespace (metadata e) ≠ Some "default".
Proof.
  rewrite default_columns_split.
  destruct (specific_cases (filters ctx)
              (bool_decide (filters_type (filters ctx) = None)) entities)
    as [[Hk ->]|[[Hk ->]|[[Hk ->]|[[Hk ->]|(Hk & Hcols & Hns)]]]].
  - split; [intros Hin; simpl in Hin; not_listed Hin|]. intros [Hother _].
    destruct (special_kind_not_other _ _ Hk); [listed|done].
  - split; [intros Hin; simpl in Hin; not_listed Hin|]. intros [Hother _].
    destruct Hk as [Hk|Hk];
      (destruct (special_kind_not_other _ _ Hk); [listed|done]).
  - split; [intros Hin; simpl in Hin; not_listed Hin|]. intros [Hother _].
    destruct Hk as [Hk|Hk];
      (destruct (special_kind_not_other _ _ Hk); [listed|done]).
  - split; [intros Hin; simpl in Hin; not_listed Hin|]. intros [Hother _].
    destruct (special_kind_not_other _ _ Hk); [listed|done].
  - rewrite <-Hns. destruct Hcols as [Hbase|Hextra].
    + rewrite Hbase. split; [intros Hin; simpl in Hin; not_listed Hin|].
      intros [_ Heq]. by apply (f_equal length) in Heq.
    + rewrite Hextra. split; [done|]. intros _. simpl. listed.
Qed.

(** X5. Whatever the filters and the entities, the default selection lists no
    column twice, has between four and nine columns, starts with the hidden
    title column and the name column carrying the kind filter's value, and ends
    with the description and tags columns; at most five columns stand in
    between. *)
Theorem default_columns_shape (ctx : EntityListContext) (entities : Store) :
  let cols := (defaultColumnsFunc ctx entities).1 in
  NoDup cols
  ∧ (4 ≤ length cols ≤ 9)%nat
  ∧ ∃ specific,
      cols = [createTitleColumn true;
              createNameColumn (value_of (filters_kind (filters ctx)))]
             ++ specific
             ++ [createMetadataDescriptionColumn; createTagsColumn]
      ∧ (length specific ≤ 5)%nat.
Proof.
  simpl. rewrite default_columns_split.
  destruct (specific_cases (filters ctx)
              (bool_decide (filters_type (filters ctx) = None)) entities)
    as [[_ ->]|[[_ ->]|[[_ ->]|[[_ ->]|(_ & [-> | ->] & _)]]]];
    (split; [|split; [simpl; lia|eexists; split; [reflexivity|simpl; lia]]]);
    simpl;
    repeat (apply NoDup_cons; split; [intros Hin; not_listed Hin|]);
    apply NoDup_nil_2.
Qed.

(** X6. Column selection only reads: for every context and every entity list
    the default column function leaves the entity array exactly as it was, and
    so does the column computation of the component when the caller passes an
    array of columns or nothing. *)
Theorem column_selection_reads_only `{Imports}
    (props : CatalogTableProps) (ctx : EntityListContext) (entities : Store) :
  (defaultColumnsFunc ctx entities).2 = entities
  ∧ ((∀ f, props_columns props ≠ Some (ColumnsFunc f)) →
     (tableColumns props ctx entities).2 = entities).
Proof.
  split; [apply defaultColumnsFunc_frame|apply tableColumns_frame].
Qed.

Lemma column_selection_reads_only_witness :
  (@tableColumns (Reference.plain_props None)
     (Reference.context Reference.no_filters None)
     [Reference.titled "x1" "b"; Reference.titled "x2" "a"]).2
  = [Reference.titled "x1" "b"; Reference.titled "x2" "a"].
Proof.
  apply (@column_selection_reads_only Reference.imports
           (Reference.plain_props None)
           (Reference.context Reference.no_filters None)
           [Reference.titled "x1" "b"; Reference.titled "x2" "a"]).
  intros f Hf. discriminate Hf.
Defined.

(** * Further properties of the render *)

Section RenderModes.
Context `{Imports}.

Lemma row_entities (entities : list Entity) :
  row_entity <$> (toEntityRow <$> entities) = entities.
Proof.
  induction entities as [|e l IH]; [done|]. simpl. by f_equal.
Qed.

(** X7. In paginated mode (no error, pagination flag set), with the default
    columns or an array of columns, the rows are the projections of the
    entities in the order of the input, one per entity, nothing is sorted, and
    the entity array is left as it was. *)
Theorem paginated_rows_in_input_order props isStarredEntity ctx entities :
  error ctx = None →
  flag_set (props_enablePagination props) = true →
  (∀ f, props_columns props ≠ Some (ColumnsFunc f)) →
  let result := CatalogTable props isStarredEntity ctx entities in
  outcome result.1 = PaginatedTable
  ∧ rendered_rows result.1 = toEntityRow <$> entities
  ∧ row_entity <$> rendered_rows result.1 = entities
  ∧ result.2 = entities.
Proof.
  intros Herr Hflag Hcols. simpl.
  rewrite CatalogTable_paginated by done. simpl.
  rewrite tableColumns_frame by done.
  by rewrite row_entities.
Qed.

(** X8. In paginated mode the caller's actions, table options, subtitle and
    empty-state content, and the starred state, have no effect on the render:
    two renders whose props agree on [columns] give the same element and leave
    the same array. *)
Theorem paginated_ignores_legacy_props props props' isStarredEntity isStarredEntity'
    ctx entities :
  error ctx = None →
  flag_set (props_enablePagination props) = true →
  flag_set (props_enablePagination props') = true →
  props_columns props = props_columns props' →
  CatalogTable props isStarredEntity ctx entities
  = CatalogTable props' isStarredEntity' ctx entities
  ∧ rendered_actions (CatalogTable props isStarredEntity ctx entities).1 = None.
Proof.
  intros Herr Hflag Hflag' Hcols.
  rewrite !CatalogTable_paginated by done.
  unfold tableColumns. by rewrite Hcols.
Qed.

(** X9. With an error, the element rendered depends on the error alone: it has
    no rows, no columns and no actions, whatever the props, filters, entities
    and starred state.  The column computation has run all the same: the array
    is as that computation left it, which with the default columns or an array
    of columns is the input. *)
Theorem error_render_depends_on_error_only props props' isStarredEntity
    isStarredEntity' ctx ctx' entities entities' err :
  error ctx = Some err →
  error ctx' = Some err →
  let result := CatalogTable props isStarredEntity ctx entities in
  result.1 = (CatalogTable props' isStarredEntity' ctx' entities').1
  ∧ rendered_rows result.1 = []
  ∧ rendered_columns result.1 = []
  ∧ rendered_actions result.1 = None
  ∧ result.2 = (tableColumns props ctx entities).2
  ∧ ((∀ f, props_columns props ≠ Some (ColumnsFunc f)) → result.2 = entities).
Proof.
  intros Herr Herr'. simpl.
  erewrite !CatalogTable_error by done. simpl.
  repeat split; try done. apply tableColumns_frame.
Qed.

(** X10. A legacy-mode render (no error, pagination flag off, default columns
    or an array of columns) only reorders the caller's array: afterwards the
    array is a permutation of the input, of the same length, and the rows
    displayed are the projections of the array's entities in the array's new
    order. *)
Theorem legacy_render_permutes props isStarredEntity ctx entities :
  error ctx = None →
  flag_set (props_enablePagination props) = false →
  (∀ f, props_columns props ≠ Some (ColumnsFunc f)) →
  let result := CatalogTable props isStarredEntity ctx entities in
  result.2 ≡ₚ entities
  ∧ length result.2 = length entities
  ∧ rendered_rows result.1 = toEntityRow <$> result.2
  ∧ row_entity <$> rendered_rows result.1 = result.2.
Proof.
  intros Herr Hflag Hcols. simpl.
  rewrite CatalogTable_legacy by done.
  rewrite LegacyCatalogTable_rows, LegacyCatalogTable_store.
  rewrite tableColumns_frame by done.
  rewrite row_entities.
  pose proof (merge_sort_Permutation (not_after refCompare) entities) as Hperm.
  repeat split; try done. by apply Permutation_length.
Qed.

(** X11. In legacy mode, actions passed by the caller replace the default
    actions altogether, also when the caller passes an empty array: the table
    is then given no action. *)
Theorem caller_actions_replace_defaults props isStarredEntity ctx entities actions :
  error ctx = None →
  flag_set (props_enablePagination props) = false →
  props_actions props = Some actions →
  rendered_actions (CatalogTable props isStarredEntity ctx entities).1 = Some actions.
Proof.
  intros Herr Hflag Hactions.
  rewrite CatalogTable_legacy by done.
  match goal with
  | |- context [LegacyCatalogTable ?p ?s] =>
      destruct (LegacyCatalogTable_eq p s) as (t & Heq & _ & _ & Hact & _)
  end.
  rewrite Heq. simpl in Hact |- *. by rewrite Hact, Hactions.
Qed.

(** X12. Without an error, the columns handed to the table are the caller's
    array when one is passed, and the default selection for the current
    filters and entities when nothing is passed, in legacy and in paginated
    mode alike. *)
Theorem rendered_columns_source props isStarredEntity ctx entities :
  error ctx = None →
  (∀ cols, props_columns props = Some (ColumnsArray cols) →
     rendered_columns (CatalogTable props isStarredEntity ctx entities).1 = cols)
  ∧ (props_columns props = None →
     rendered_columns (CatalogTable props isStarredEntity ctx entities).1
     = (defaultColumnsFunc ctx entities).1).
Proof.
  intros Herr.
  assert (Hcols : rendered_columns (CatalogTable props isStarredEntity ctx entities).1
                  = (tableColumns props ctx entities).1).
  { destruct (flag_set (props_enablePagination props)) eqn:Hflag.
    - by rewrite CatalogTable_paginated.
    - rewrite CatalogTable_legacy by done.
      match goal with
      | |- context [LegacyCatalogTable ?p ?s] =>
          destruct (LegacyCatalogTable_eq p s) as (t & Heq & _ & _ & _ & Hc & _)
      end.
      rewrite Heq. simpl in Hc |- *. by rewrite Hc. }
  rewrite Hcols. unfold tableColumns.
  split; [intros cols Hprop|intros Hprop]; by rewrite Hprop.
Qed.

End RenderModes.

Lemma paginated_rows_in_input_order_witness :
  row_entity
    <$> rendered_rows
          (@CatalogTable Reference.imports (Reference.plain_props (Some true))
             Reference.nobody_starred (Reference.context Reference.no_filters None)
             [Reference.titled "x1" "b"; Reference.titled "x2" "a"]).1
  = [Reference.titled "x1" "b"; Reference.titled "x2" "a"].
Proof.
  apply (@paginated_rows_in_input_order Reference.imports
           (Reference.plain_props (Some true)) Reference.nobody_starred
           (Reference.context Reference.no_filters None)
           [Reference.titled "x1" "b"; Reference.titled "x2" "a"]).
  - reflexivity.
  - reflexivity.
  - intros f Hf. discriminate Hf.
Defined.

Lemma paginated_ignores_legacy_props_witness :
  @CatalogTable Reference.imports (Reference.plain_props (Some true))
    Reference.nobody_starred (Reference.context Reference.no_filters None)
    [Reference.owned_component]
  = @CatalogTable Reference.imports
      {| props_columns := None; props_actions := Some [];
         props_tableOptions := Some {["paging" := VBool false]};
         props_emptyContent := Some "nothing here";
         props_subtitle := Some "catalog";
         props_enablePagination := Some true |}
      (λ _, true) (Reference.context Reference.no_filters None)
      [Reference.owned_component].
Proof.
  apply (@paginated_ignores_legacy_props Reference.imports
           (Reference.plain_props (Some true))
           {| props_columns := None; props_actions := Some [];
              props_tableOptions := Some {["paging" := VBool false]};
              props_emptyContent := Some "nothing here";
              props_subtitle := Some "catalog";
              props_enablePagination := Some true |}
           Reference.nobody_starred (λ _, true)
           (Reference.context Reference.no_filters None)
           [Reference.owned_component]);
    reflexivity.
Defined.

Lemma error_render_depends_on_error_only_witness :
  (@CatalogTable Reference.imports (Reference.plain_props None)
     Reference.nobody_starred
     (Reference.context Reference.no_filters
        (Some {| error_name := "Error"; error_message := "down" |}))
     [Reference.owned_component]).1
  = (@CatalogTable Reference.imports (Reference.plain_props (Some true))
       (λ _, true)
       (Reference.context (Reference.kind_filter "user")
          (Some {| error_name := "Error"; error_message := "down" |}))
       []).1.
Proof.
  apply (@error_render_depends_on_error_only Reference.imports
           (Reference.plain_props None) (Reference.plain_props (Some true))
           Reference.nobody_starred (λ _, true)
           (Reference.context Reference.no_filters
              (Some {| error_name := "Error"; error_message := "down" |}))
           (Reference.context (Reference.kind_filter "user")
              (Some {| error_name := "Error"; error_message := "down" |}))
           [Reference.owned_component] []
           {| error_name := "Error"; error_message := "down" |});
    reflexivity.
Defined.

Lemma legacy_render_permutes_witness :
  (@CatalogTable Reference.imports (Reference.plain_props None)
     Reference.nobody_starred (Reference.context Reference.no_filters None)
     [Reference.titled "x1" "b"; Reference.titled "x2" "a"]).2
  ≡ₚ [Reference.titled "x1" "b"; Reference.titled "x2" "a"].
Proof.
  apply (@legacy_render_permutes Reference.imports (Reference.plain_props None)
           Reference.nobody_starred (Reference.context Reference.no_filters None)
           [Reference.titled "x1" "b"; Reference.titled "x2" "a"]).
  - reflexivity.
  - reflexivity.
  - intros f Hf. discriminate Hf.
Defined.

Lemma caller_actions_replace_defaults_witness :
  rendered_actions
    (@CatalogTable Reference.imports
       {| props_columns := None; props_actions := Some [];
          props_tableOptions := None; props_emptyContent := None;
          props_subtitle := None; props_enablePagination := None |}
       Reference.nobody_starred (Reference.context Reference.no_filters None)
       [Reference.owned_component]).1
  = Some [].
Proof.
  apply (@caller_actions_replace_defaults Reference.imports
           {| props_columns := None; props_actions := Some [];
              props_tableOptions := None; props_emptyContent := None;
              props_subtitle := None; props_enablePagination := None |}
           Reference.nobody_starred (Reference.context Reference.no_filters None)
           [Reference.owned_component] []);
    reflexivity.
Defined.

Lemma rendered_columns_source_witness :
  rendered_columns
    (@CatalogTable Reference.imports
       {| props_columns := Some (ColumnsArray [createTagsColumn]);
          props_actions := None; props_tableOptions := None;
          props_emptyContent := None; props_subtitle := None;
          props_enablePagination := Some true |}
       Reference.nobody_starred (Reference.context Reference.no_filters None)
       [Reference.owned_component]).1
  = [createTagsColumn].
Proof.
  apply (@rendered_columns_source Reference.imports
           {| props_columns := Some (ColumnsArray [createTagsColumn]);
              props_actions := None; props_tableOptions := None;
              props_emptyContent := None; props_subtitle := None;
              props_enablePagination := Some true |}
           Reference.nobody_starred (Reference.context Reference.no_filters None)
           [Reference.owned_component]);
    reflexivity.
Defined.

(** * Further properties of the legacy table *)

(** The keys [LegacyCatalogTable] sets before spreading the caller's options. *)
Lemma default_options_keys (paging loading : bool) (k : string) :
  is_Some ((<["paging" := VBool paging]>
           (<["pageSize" := VNum 20]>
           (<["actionsColumnIndex" := VNum (-1)]>
           (<["loadingType" := VStr "linear"]>
           (<["showEmptyDataSourceMessage" := VBool (negb loading)]>
           (<["padding" := VStr "dense"]>
           (<["pageSizeOptions" := VNumList [20; 50; 100]]>
              (∅ : gmap string JsValue)))))))) !! k)
  ↔ k ∈ ["paging"; "pageSize"; "actionsColumnIndex"; "loadingType";
         "showEmptyDataSourceMessage"; "padding"; "pageSizeOptions"].
Proof.
  rewrite !lookup_insert_is_Some', !elem_of_cons, elem_of_nil, lookup_empty.
  assert (Hnone : ¬ is_Some (@None JsValue)) by by intros [? ?].
  intuition (subst; auto 10).
Qed.

Section LegacyOptions.
Context `{Imports}.

(** X13. In legacy mode every option the caller passes reaches the table
    widget with the caller's value, also [paging], [pageSize] and
    [pageSizeOptions]; an option the caller leaves out keeps the component's
    value (among them [actionsColumnIndex] -1, [loadingType] linear, [padding]
    dense, and [showEmptyDataSourceMessage] the negation of the loading flag);
    and the widget is given no option beyond the caller's and those seven. *)
Theorem caller_options_override props isStarredEntity ctx entities :
  error ctx = None →
  flag_set (props_enablePagination props) = false →
  let o : gmap string JsValue := default ∅ (props_tableOptions props) in
  ∃ t : TableProps,
    (CatalogTable props isStarredEntity ctx entities).1 = Table t
    ∧ (∀ k v, o !! k = Some v → table_options t !! k = Some v)
    ∧ (o !! "actionsColumnIndex" = None →
       table_options t !! "actionsColumnIndex" = Some (VNum (-1)))
    ∧ (o !! "loadingType" = None →
       table_options t !! "loadingType" = Some (VStr "linear"))
    ∧ (o !! "padding" = None → table_options t !! "padding" = Some (VStr "dense"))
    ∧ (o !! "showEmptyDataSourceMessage" = None →
       table_options t !! "showEmptyDataSourceMessage"
       = Some (VBool (negb (loading ctx))))
    ∧ (∀ k, is_Some (table_options t !! k)
            ↔ is_Some (o !! k)
              ∨ k ∈ ["paging"; "pageSize"; "actionsColumnIndex"; "loadingType";
                     "showEmptyDataSourceMessage"; "padding"; "pageSizeOptions"]).
Proof.
  intros Herr Hflag o.
  rewrite CatalogTable_legacy by done.
  match goal with
  | |- context [LegacyCatalogTable ?p ?s] =>
      destruct (LegacyCatalogTable_eq p s) as (t & Heq & _ & _ & _ & _ & Ho)
  end.
  rewrite Heq. simpl in Ho. exists t. split; [done|]. rewrite Ho.
  unfold spread. fold o.
  split; [intros k v Hk; by apply lookup_union_Some_l|].
  repeat (split; [intros Hk; by rewrite lookup_union_r|]).
  intros k. by rewrite lookup_union_is_Some, default_options_keys.
Qed.

End LegacyOptions.

Lemma caller_options_override_witness :
  ∃ t : TableProps,
    (@CatalogTable Reference.imports
       {| props_columns := None; props_actions := None;
          props_tableOptions := Some {["paging" := VBool false]};
          props_emptyContent := None; props_subtitle := None;
          props_enablePagination := None |}
       Reference.nobody_starred (Reference.context Reference.no_filters None)
       (replicate 21 Reference.owned_component)).1 = Table t
    ∧ table_options t !! "paging" = Some (VBool false)
    ∧ table_options t !! "padding" = Some (VStr "dense").
Proof.
  destruct (@caller_options_override Reference.imports
              {| props_columns := None; props_actions := None;
                 props_tableOptions := Some {["paging" := VBool false]};
                 props_emptyContent := None; props_subtitle := None;
                 props_enablePagination := None |}
              Reference.nobody_starred
              (Reference.context Reference.no_filters None)
              (replicate 21 Reference.owned_component))
    as (t & Ht & Hcaller & _ & _ & Hpadding & _).
  - reflexivity.
  - reflexivity.
  - exists t. split; [exact Ht|]. split.
    + apply Hcaller. reflexivity.
    + apply Hpadding. reflexivity.
Defined.

(** * Further properties of the default actions *)

(** X14. A click on a default action of a row has at most one effect, and that
    effect concerns this row only: it toggles the favorite state of the row's
    own entity, or it opens, in a new browsing context, a non-empty URL that is
    the row entity's view-URL or edit-URL annotation.  No default action opens
    a URL from anywhere else or touches another entity. *)
Theorem default_actions_effects (isStarredEntity : Entity → bool)
    (row : CatalogTableRow) :
  Forall
    (λ action : CatalogTableRow → Action,
       (length (onClick (action row)) ≤ 1)%nat
       ∧ Forall
           (λ effect,
              effect = ToggleStarredEntity (row_entity row)
              ∨ ∃ u, effect = WindowOpen u "_blank" ∧ u ≠ ""
                     ∧ (annotation (row_entity row) ANNOTATION_VIEW_URL = Some u
                        ∨ annotation (row_entity row) ANNOTATION_EDIT_URL = Some u))
           (onClick (action row)))
    (defaultActions isStarredEntity).
Proof.
  assert (Hopen : ∀ url,
            (length (open_in_new url) ≤ 1)%nat
            ∧ Forall (λ effect, ∃ u, effect = WindowOpen u "_blank" ∧ u ≠ ""
                                     ∧ url = Some u)
                (open_in_new url)).
  { intros [u|]; simpl; [|split; [lia|constructor]].
    destruct (String.eqb_spec u ""); simpl; (split; [lia|]); repeat constructor.
    eauto. }
  unfold defaultActions. repeat apply Forall_cons_2; [| | |apply Forall_nil_2].
  - destruct (Hopen (annotation (row_entity row) ANNOTATION_VIEW_URL)) as [Hlen Heff].
    split; [exact Hlen|]. eapply Forall_impl; [exact Heff|].
    intros effect (u & -> & Hu & Hurl). right. eauto.
  - destruct (Hopen (annotation (row_entity row) ANNOTATION_EDIT_URL)) as [Hlen Heff].
    split; [exact Hlen|]. eapply Forall_impl; [exact Heff|].
    intros effect (u & -> & Hu & Hurl). right. eauto.
  - simpl. split; [lia|]. repeat constructor.
Qed.

(** X15. For every default action of a row the visually hidden text of the icon
    is the tooltip; the three tooltips differ from one another; and the
    favorite action, which is never disabled, reads "Remove from favorites"
    with the filled star exactly when the entity is starred, and "Add to
    favorites" with the outlined star otherwise. *)
Theorem default_actions_labels (isStarredEntity : Entity → bool)
    (row : CatalogTableRow) :
  Forall (λ action : CatalogTableRow → Action,
            (icon (action row)).1 = tooltip (action row))
    (defaultActions isStarredEntity)
  ∧ NoDup ((λ action : CatalogTableRow → Action, tooltip (action row))
             <$> defaultActions isStarredEntity)
  ∧ disabled (starAction isStarredEntity row) = None
  ∧ (isStarredEntity (row_entity row) = true
     ↔ tooltip (starAction isStarredEntity row) = "Remove from favorites"
       ∧ (icon (starAction isStarredEntity row)).2 = YellowStar)
  ∧ (isStarredEntity (row_entity row) = false
     ↔ tooltip (starAction isStarredEntity row) = "Add to favorites"
       ∧ (icon (starAction isStarredEntity row)).2 = StarBorder).
Proof.
  unfold defaultActions, starAction. simpl.
  destruct (isStarredEntity (row_entity row)); simpl.
  - split; [repeat constructor|]. split.
    + repeat (apply NoDup_cons; split; [intros Hin; not_listed Hin|]).
      apply NoDup_nil_2.
    + repeat split; try done; intros [? ?]; done.
  - split; [repeat constructor|]. split.
    + repeat (apply NoDup_cons; split; [intros Hin; not_listed Hin|]).
      apply NoDup_nil_2.
    + repeat split; try done; intros [? ?]; done.
Qed.

(** * Further properties of the legacy sort *)

Lemma StronglySorted_weaken {A} (R1 R2 : relation A) (l : list A) :
  (∀ x y, R1 x y → R2 x y) → StronglySorted R1 l → StronglySorted R2 l.
Proof.
  intros Himpl Hsorted. rewrite <-(list_fmap_id l).
  by apply (StronglySorted_fmap id R1 R2).
Qed.

Lemma StronglySorted_restrict {A} (R : relation A) (P : A → Prop) (l : list A) :
  StronglySorted R l → Forall P l →
  StronglySorted (λ x y, R x y ∧ P x ∧ P y) l.
Proof.
  induction 1 as [|x l Hsorted IH Hx]; intros HP; [constructor|].
  apply Forall_cons in HP as [Px Pl]. constructor; [by apply IH|].
  rewrite Forall_forall in Hx, Pl |- *. intros y Hy. auto.
Qed.

Section SortedByName.
Context `{Imports}.

Lemma toRef_untitled (entity : Entity) :
  truthy (meta_title (metadata entity)) = false →
  toRef entity = humanizeEntityRef (inl entity) (Some "Component").
Proof.
  unfold toRef, or_else, truthy.
  destruct (meta_title (metadata entity)) as [t|]; [|done].
  by destruct (String.eqb t "").
Qed.

(** Members of a list in strictly ascending order are equal or strictly
    ordered, one way or the other. *)
Lemma strictly_sorted_members (l : list Entity) (x y : Entity) :
  StronglySorted (λ a b, refCompare a b < 0) l →
  x ∈ l → y ∈ l →
  x = y ∨ refCompare x y < 0 ∨ refCompare y x < 0.
Proof.
  induction 1 as [|a l Hsorted IH Ha]; intros Hx Hy.
  - by apply elem_of_nil in Hx.
  - rewrite Forall_forall in Ha.
    apply elem_of_cons in Hx as [->|Hx]; apply elem_of_cons in Hy as [->|Hy]; auto.
Qed.

Hypothesis localeCompare_total :
  ∀ a b, localeCompare a b ≤ 0 ∨ localeCompare b a ≤ 0.
Hypothesis localeCompare_trans :
  ∀ a b c, localeCompare a b ≤ 0 → localeCompare b c ≤ 0 → localeCompare a c ≤ 0.

Lemma sort_strongly_sorted (entities : list Entity) :
  StronglySorted (not_after refCompare) (merge_sort (not_after refCompare) entities).
Proof.
  apply (@StronglySorted_merge_sort _ (not_after refCompare) _).
  - intros a b c. apply localeCompare_trans.
  - intros a b. apply localeCompare_total.
Qed.

(** X16. In legacy mode (default columns or an array of columns), when no
    entity has a non-empty title, the rows are in ascending order of their
    [resolved.name] (the humanized reference) under [localeCompare]; with
    titles the order follows the title and need not follow [resolved.name]. *)
Theorem untitled_rows_sorted_by_name props isStarredEntity ctx entities :
  error ctx = None →
  flag_set (props_enablePagination props) = false →
  (∀ f, props_columns props ≠ Some (ColumnsFunc f)) →
  Forall (λ e, truthy (meta_title (metadata e)) = false) entities →
  StronglySorted
    (λ r1 r2, localeCompare (resolved_name (resolved r1))
                            (resolved_name (resolved r2)) ≤ 0)
    (rendered_rows (CatalogTable props isStarredEntity ctx entities).1).
Proof.
  intros Herr Hflag Hcols Huntitled.
  rewrite CatalogTable_legacy by done.
  rewrite LegacyCatalogTable_rows, tableColumns_frame by done.
  eapply StronglySorted_fmap;
    [|apply StronglySorted_restrict; [apply sort_strongly_sorted|]].
  - intros a b (Hab & Ha & Hb). simpl.
    unfold not_after, refCompare in Hab.
    by rewrite (toRef_untitled a Ha), (toRef_untitled b Hb) in Hab.
  - by rewrite merge_sort_Permutation.
Qed.

(** A comparator whose sign turns with its arguments. *)
Hypothesis localeCompare_sign :
  ∀ a b, localeCompare a b < 0 → 0 < localeCompare b a.

(** X17. A legacy-mode render (default columns or an array of columns) of a
    list that is already in strictly ascending order of display name leaves
    the caller's array unchanged and shows the rows in the order of the
    input. *)
Theorem sorted_input_unchanged props isStarredEntity ctx entities :
  error ctx = None →
  flag_set (props_enablePagination props) = false →
  (∀ f, props_columns props ≠ Some (ColumnsFunc f)) →
  StronglySorted (λ a b, refCompare a b < 0) entities →
  (CatalogTable props isStarredEntity ctx entities).2 = entities
  ∧ rendered_rows (CatalogTable props isStarredEntity ctx entities).1
    = toEntityRow <$> entities.
Proof.
  intros Herr Hflag Hcols Hstrict.
  rewrite CatalogTable_legacy by done.
  rewrite LegacyCatalogTable_rows, LegacyCatalogTable_store.
  rewrite tableColumns_frame by done.
  assert (Hsame : merge_sort (not_after refCompare) entities = entities).
  { apply (StronglySorted_unique_strong (not_after refCompare)).
    - intros x1 x2 Hx1 Hx2 H12 H21.
      rewrite merge_sort_Permutation in Hx1.
      unfold not_after in H12, H21.
      destruct (strictly_sorted_members entities x1 x2 Hstrict Hx1 Hx2)
        as [Heq|[Hlt|Hlt]]; [done| |];
        apply localeCompare_sign in Hlt; unfold refCompare in *; lia.
    - apply sort_strongly_sorted.
    - apply (StronglySorted_weaken (λ a b, refCompare a b < 0)); [|exact Hstrict].
      intros a b Hlt. unfold not_after. lia.
    - apply merge_sort_Permutation. }
  by rewrite Hsame.
Qed.

End SortedByName.

Lemma codepoint_compare_sign (a b : string) :
  Reference.codepoint_compare a b < 0 → 0 < Reference.codepoint_compare b a.
Proof.
  unfold Reference.codepoint_compare. rewrite (String.compare_antisym b a).
  destruct (String.compare a b); simpl; lia.
Qed.

Lemma untitled_rows_sorted_by_name_witness :
  StronglySorted
    (λ r1 r2, Reference.codepoint_compare (resolved_name (resolved r1))
                                          (resolved_name (resolved r2)) ≤ 0)
    (rendered_rows
       (@CatalogTable Reference.imports (Reference.plain_props None)
          Reference.nobody_starred (Reference.context Reference.no_filters None)
          [Reference.component "zeta" None None;
           Reference.component "alpha" (Some "") None]).1).
Proof.
  apply (@untitled_rows_sorted_by_name Reference.imports
           codepoint_compare_total codepoint_compare_trans
           (Reference.plain_props None) Reference.nobody_starred
           (Reference.context Reference.no_filters None)
           [Reference.component "zeta" None None;
            Reference.component "alpha" (Some "") None]).
  - reflexivity.
  - reflexivity.
  - intros f Hf. discriminate Hf.
  - repeat constructor.
Defined.

Lemma sorted_input_unchanged_witness :
  (@CatalogTable Reference.imports (Reference.plain_props None)
     Reference.nobody_starred (Reference.context Reference.no_filters None)
     [Reference.titled "x2" "a"; Reference.titled "x1" "b"]).2
  = [Reference.titled "x2" "a"; Reference.titled "x1" "b"].
Proof.
  apply (@sorted_input_unchanged Reference.imports
           codepoint_compare_total codepoint_compare_trans codepoint_compare_sign
           (Reference.plain_props None) Reference.nobody_starred
           (Reference.context Reference.no_filters None)
           [Reference.titled "x2" "a"; Reference.titled "x1" "b"]).
  - reflexivity.
  - reflexivity.
  - intros f Hf. discriminate Hf.
  - repeat constructor.
Defined.

(** X18. If a legacy-mode render (default columns or an array of columns)
    leaves the caller's array as it was, the array was already in ascending
    order of display name: every list with an entity placed before one it
    compares greater than is rewritten by the render. *)
Theorem unchanged_only_if_sorted `{Imports} props isStarredEntity ctx entities :
  (∀ a b, localeCompare a b ≤ 0 ∨ localeCompare b a ≤ 0) →
  (∀ a b c, localeCompare a b ≤ 0 → localeCompare b c ≤ 0 → localeCompare a c ≤ 0) →
  error ctx = None →
  flag_set (props_enablePagination props) = false →
  (∀ f, props_columns props ≠ Some (ColumnsFunc f)) →
  (CatalogTable props isStarredEntity ctx entities).2 = entities →
  StronglySorted (λ a b, refCompare a b ≤ 0) entities.
Proof.
  intros Htotal Htrans Herr Hflag Hcols.
  rewrite CatalogTable_legacy by done.
  rewrite LegacyCatalogTable_store, tableColumns_frame by done.
  intros Hsame. rewrite <-Hsame.
  by apply (sort_strongly_sorted Htotal Htrans entities).
Qed.

Lemma unchanged_only_if_sorted_witness :
  StronglySorted (λ a b, @refCompare Reference.imports a b ≤ 0)
    [Reference.titled "x2" "a"; Reference.titled "x1" "b"].
Proof.
  apply (@unchanged_only_if_sorted Reference.imports (Reference.plain_props None)
           Reference.nobody_starred (Reference.context Reference.no_filters None)
           [Reference.titled "x2" "a"; Reference.titled "x1" "b"]
           codepoint_compare_total codepoint_compare_trans).
  - reflexivity.
  - reflexivity.
  - intros f Hf. discriminate Hf.
  - reflexivity.
Defined.
